(** * pdf_reader: a shallow embedding of [src/pdf_reader/main.py]

    The development follows the layout of the Python module: the
    [PDFReader] class, its methods in source order, then the properties
    of the pipeline.

    Modelling choices.
    - Python [str] values are [string]s of ASCII characters, on which
      [str.lower] works character by character; titles beyond ASCII,
      where it does not, are treated in the module [Unicode].
    - Page coordinates ([top], [bbox]) are finite floats; they are only
      ever compared ([<], [==], [max], truthiness), so they are modelled
      as rationals with the rational order.
    - A Python [dict] is an insertion-ordered association list without
      duplicate keys ([PyDict]).
    - Methods that log, touch the file system or raise are computations
      in the monad [Py]: a state ([World]: file system and log) and an
      outcome ([Returns v] or [Raises e]).
    - The libraries the module calls (requests, yaml, pdfplumber) are not
      part of the repository: their answers are parameters of the model
      (Section variables and the fields of [Page]). *)

From Stdlib Require Import Ascii String QArith Lqa.
From stdpp Require Import gmap strings list fin_maps.

Local Open Scope string_scope.
Local Open Scope list_scope.

(** ** Python strings *)

Module PyStr.

Definition LF : ascii := "010"%char.
Definition CR : ascii := "013"%char.
Definition SPACE : ascii := " "%char.
Definition UNDERSCORE : ascii := "_"%char.
Definition COMMA : ascii := ","%char.
Definition SLASH : ascii := "/"%char.
Definition DQUOTE : ascii := "034"%char.

(** [s.replace(old, new)] for a one-character [old]. *)
Fixpoint replace (old : ascii) (new : string) (s : string) : string :=
  match s with
  | EmptyString => EmptyString
  | String c r =>
      if Ascii.eqb c old then new ++ replace old new r
      else String c (replace old new r)
  end.

Definition is_upper (c : ascii) : bool :=
  let n := nat_of_ascii c in (65 <=? n)%nat && (n <=? 90)%nat.

Definition lower_char (c : ascii) : ascii :=
  if is_upper c then ascii_of_nat (nat_of_ascii c + 32) else c.

(** [s.lower()] of an ASCII string (what it is for any string is
    [Unicode.lower]). *)
Fixpoint lower (s : string) : string :=
  match s with
  | EmptyString => EmptyString
  | String c r => String (lower_char c) (lower r)
  end.

(** [c in s] for a character [c]. *)
Fixpoint contains (c : ascii) (s : string) : bool :=
  match s with
  | EmptyString => false
  | String d r => Ascii.eqb d c || contains c r
  end.

(** Truthiness of a [str]: the empty string is falsy. *)
Definition truthy (s : string) : bool :=
  match s with EmptyString => false | _ => true end.

Definition startswith (c : ascii) (s : string) : bool :=
  match s with String d _ => Ascii.eqb d c | EmptyString => false end.

Fixpoint endswith (c : ascii) (s : string) : bool :=
  match s with
  | EmptyString => false
  | String d EmptyString => Ascii.eqb d c
  | String _ r => endswith c r
  end.

(** [s.split(sep)] for a one-character separator. *)
Fixpoint split (sep : ascii) (s : string) : list string :=
  match s with
  | EmptyString => [EmptyString]
  | String c r =>
      if Ascii.eqb c sep then EmptyString :: split sep r
      else match split sep r with
           | h :: t => String c h :: t
           | [] => [String c EmptyString]
           end
  end.

(** [sep.join(l)] *)
Fixpoint join (sep : string) (l : list string) : string :=
  match l with
  | [] => EmptyString
  | [x] => x
  | x :: r => x ++ sep ++ join sep r
  end.

End PyStr.

(** ** Exceptions, outcomes and the log *)

Inductive exn : Type :=
| KeyError (key : string)
| IndexError
| TypeError
| ValueError
| AttributeError (attr : string)
| FileNotFoundError (path : string)
| OSError (path : string)
| YAMLError
| RequestException
| PdfError
| Exception (msg : string).

Inductive result (A : Type) : Type :=
| Returns (v : A)
| Raises (e : exn).
Arguments Returns {A} v.
Arguments Raises {A} e.

(** The records handed to [logging]; the formatted message is kept in
    structured form (the f-string's holes are the constructor's
    arguments). *)
Inductive LogRecord : Type :=
| Error_config_not_found (config_path : string)
| Error_parsing_yaml (e : exn)
| Info_pdf_downloaded
| Error_downloading (e : exn)
| Info_extracted_title (title : string)
| Error_extracting_tables (page_num : nat) (e : exn)
| Error_processing_pdf (e : exn)
| Info_table_saved (filepath : string)
| Error_saving_csv (e : exn)
| Error_no_valid_tables.

(** ** Titles and the title-table associator *)

(** One match of [page.search]: a dict of which the module reads the
    keys [text] and [top]. *)
Record Title : Type := mkTitle { text : string; top : Q }.

Definition Qltb (x y : Q) : bool := negb (Qle_bool y x).

(** [max(iterable, default=None)]: the first of the greatest items. *)
Definition py_max (l : list Q) : option Q :=
  match l with
  | [] => None
  | x :: r => Some (fold_left (fun m y => if Qltb m y then y else m) r x)
  end.

(** Truthiness of a float: zero is falsy. *)
Definition float_truthy (x : Q) : bool := negb (Qeq_bool x 0).

Definition find_title_for_table (titles : list Title) (table_top : Q)
  : option string :=
  let title_top :=
    py_max (map top (List.filter (fun title => Qltb (top title) table_top) titles)) in
  match title_top with
  | Some m =>
      if float_truthy m then
        head (map (fun title => PyStr.replace PyStr.LF EmptyString (text title))
                  (List.filter (fun title => Qeq_bool (top title) m) titles))
      else None
  | None => None
  end.

(** ** Python dictionaries: insertion-ordered, one entry per key *)

Module PyDict.

Definition t (V : Type) : Type := list (string * V).

Definition empty {V} : t V := [].

(** [d.get(k)] *)
Fixpoint get {V} (k : string) (d : t V) : option V :=
  match d with
  | [] => None
  | (k', v) :: r => if String.eqb k k' then Some v else get k r
  end.

(** [d[k] = v]: an existing key keeps its position. *)
Fixpoint set {V} (k : string) (v : V) (d : t V) : t V :=
  match d with
  | [] => [(k, v)]
  | (k', v') :: r =>
      if String.eqb k k' then (k, v) :: r else (k', v') :: set k v r
  end.

(** [d.update(other)] *)
Definition update {V} (d other : t V) : t V :=
  fold_left (fun acc kv => set (fst kv) (snd kv) acc) other d.

Definition keys {V} (d : t V) : list string := map fst d.

(** Truthiness: the empty dict is falsy. *)
Definition truthy {V} (d : t V) : bool :=
  match d with [] => false | _ => true end.

End PyDict.

(** ** The file system *)

(** A node is named by its components from the root. [fs_failing] is
    the part of the environment that makes a write fail after the file
    is opened (a full or faulty device): the nodes on which it does.

    Of the classes of [OSError] the module tells [FileNotFoundError]
    apart (in [load_config]); [OSError] stands for every other class
    ([NotADirectoryError], [IsADirectoryError], [FileExistsError], the
    plain [OSError] of pandas). *)
Record FS : Type := mkFS {
  fs_dirs : gset (list string);
  fs_files : gmap (list string) string;
  fs_cwd : list string;
  fs_failing : gset (list string)
}.

Module os.

Definition is_dot (c : string) : bool :=
  String.eqb c EmptyString || String.eqb c ".".

Definition path_step (cur : list string) (c : string) : list string :=
  if is_dot c then cur
  else if String.eqb c ".." then removelast cur
  else cur ++ [c].

Definition path_start (fs : FS) (p : string) : list string :=
  if PyStr.startswith PyStr.SLASH p then [] else fs_cwd fs.

(** The node a path string names when every directory on the way exists. *)
Definition locate (fs : FS) (p : string) : list string :=
  fold_left path_step (PyStr.split PyStr.SLASH p) (path_start fs p).

Definition is_file (fs : FS) (node : list string) : bool :=
  bool_decide (is_Some (fs_files fs !! node)).

(** Walking a path: each component is looked up in the node reached so
    far, which must be a directory. Looking a component up in a regular
    file is [NotADirectoryError], in nothing at all [FileNotFoundError]. *)
Fixpoint resolve (fs : FS) (name : string) (cur : list string)
         (comps : list string) : result (list string) :=
  match comps with
  | [] => Returns cur
  | c :: rest =>
      if bool_decide (cur ∈ fs_dirs fs) then resolve fs name (path_step cur c) rest
      else if is_file fs cur then Raises (OSError name)
      else Raises (FileNotFoundError name)
  end.

(** The node a path names; the empty path names nothing. *)
Definition lookup (fs : FS) (p : string) : result (list string) :=
  if negb (PyStr.truthy p) then Raises (FileNotFoundError p)
  else resolve fs p (path_start fs p) (PyStr.split PyStr.SLASH p).


(** [os.path.join(a, b)] (posixpath) *)
Definition path_join (a b : string) : string :=
  if PyStr.startswith PyStr.SLASH b then b
  else if negb (PyStr.truthy a) || PyStr.endswith PyStr.SLASH a then a ++ b
  else a ++ String PyStr.SLASH b.

Definition add_dir (node : list string) (fs : FS) : FS :=
  {| fs_dirs := {[node]} ∪ fs_dirs fs;
     fs_files := fs_files fs;
     fs_cwd := fs_cwd fs;
     fs_failing := fs_failing fs |}.

Fixpoint makedirs_walk (name : string) (comps : list string)
         (cur : list string) (fs : FS) : result FS :=
  match comps with
  | [] => Returns fs
  | c :: rest =>
      let next := path_step cur c in
      if is_file fs next then Raises (OSError name)
      else makedirs_walk name rest next (add_dir next fs)
  end.

(** [os.makedirs(name, exist_ok=True)]: every directory on the way is
    created when absent; a regular file on the way is an error. *)
Definition makedirs (name : string) (fs : FS) : result FS :=
  if negb (PyStr.truthy name) then Raises (FileNotFoundError name)
  else
    let start := path_start fs name in
    if bool_decide (start ∈ fs_dirs fs)
    then makedirs_walk name (PyStr.split PyStr.SLASH name) start fs
    else Raises (FileNotFoundError name).

(** [open(path, "r").read()] *)
Definition read_file (p : string) (fs : FS) : result string :=
  match lookup fs p with
  | Raises e => Raises e
  | Returns node =>
      match fs_files fs !! node with
      | Some content => Returns content
      | None =>
          if bool_decide (node ∈ fs_dirs fs) then Raises (OSError p)
          else Raises (FileNotFoundError p)
      end
  end.

(** The file system with [content] in the file at [node]. *)
Definition set_file (node : list string) (content : string) (fs : FS) : FS :=
  {| fs_dirs := fs_dirs fs;
     fs_files := <[node := content]> (fs_files fs);
     fs_cwd := fs_cwd fs;
     fs_failing := fs_failing fs |}.

(** [open(path, "w")]: the node the file is created or truncated at.
    Every directory on the way must exist and the target must not be a
    directory. *)
Definition open_for_write (p : string) (fs : FS) : result (list string) :=
  match lookup fs p with
  | Raises e => Raises e
  | Returns node =>
      let name := List.last (PyStr.split PyStr.SLASH p) EmptyString in
      if is_dot name || String.eqb name ".." || bool_decide (node ∈ fs_dirs fs)
      then Raises (OSError p)
      else Returns node
  end.

(** [open(path, "w").write(content)] when it returns. *)
Definition write_file (p : string) (content : string) (fs : FS) : result FS :=
  match open_for_write p fs with
  | Raises e => Raises e
  | Returns node =>
      if bool_decide (node ∈ fs_failing fs) then Raises (OSError p)
      else Returns (set_file node content fs)
  end.

End os.

(** ** The monad of methods: state and exceptions *)

Record World : Type := mkWorld { fs : FS; log : list LogRecord }.

Definition Py (A : Type) : Type := World -> result A * World.

Definition ret {A} (v : A) : Py A := fun w => (Returns v, w).

Definition raise {A} (e : exn) : Py A := fun w => (Raises e, w).

Definition bind {A B} (c : Py A) (k : A -> Py B) : Py B :=
  fun w =>
    match c w with
    | (Returns v, w') => k v w'
    | (Raises e, w') => (Raises e, w')
    end.

Declare Scope py_scope.
Delimit Scope py_scope with py.
Notation "x <- c ;; k" := (bind c (fun x => k))
  (at level 100, c at next level, k at level 200, right associativity) : py_scope.
Notation "c ;;; k" := (bind c (fun _ => k))
  (at level 100, k at level 200, right associativity) : py_scope.
Local Open Scope py_scope.

(** A pure call that may raise. *)
Definition call {A} (r : result A) : Py A := fun w => (r, w).

(** [try: body / except Exception as e: handler(e)] *)
Definition try_except {A} (body : Py A) (handler : exn -> Py A) : Py A :=
  fun w =>
    match body w with
    | (Raises e, w') => handler e w'
    | r => r
    end.

Definition logging (r : LogRecord) : Py unit :=
  fun w => (Returns tt, {| fs := fs w; log := log w ++ [r] |}).

(** A file-system call that changes the file system. *)
Definition fs_update (op : FS -> result FS) : Py unit :=
  fun w =>
    match op (fs w) with
    | Returns fs' => (Returns tt, {| fs := fs'; log := log w |})
    | Raises e => (Raises e, w)
    end.

Definition fs_query {A} (op : FS -> result A) : Py A :=
  fun w => (op (fs w), w).

(** [l[i]] on a list *)
Definition list_getitem {A} (l : list A) (i : nat) : result A :=
  match nth_error l i with
  | Some x => Returns x
  | None => Raises IndexError
  end.

(** ** Tables and data frames *)

(** A cell of an extracted table: a string, or [None] for an empty cell. *)
Definition Cell : Type := option string.

(** What [page.extract_tables] yields for one table: a list of rows. *)
Definition Table : Type := list (list Cell).

(** The bounding box of a found table: [(x0, top, x1, bottom)]. *)
Definition BBox : Type := (Q * Q * Q * Q)%type.

(** [bbox[1]] *)
Definition bbox_1 (b : BBox) : Q :=
  match b with (_, t, _, _) => t end.

Record DataFrame : Type := mkDataFrame {
  columns : list Cell;
  rows : list (list Cell)
}.

Module pd.

Definition width (data : list (list Cell)) : nat :=
  fold_right Nat.max 0%nat (map (@length Cell) data).

(** A short row is filled with missing values. *)
Definition pad (w : nat) (row : list Cell) : list Cell :=
  row ++ repeat None (w - length row).

(** [pd.DataFrame(data, columns=columns)] for a list of rows, as far as
    the module relies on pandas here: the longest row gives the number
    of columns, and a header of another length is refused with
    [ValueError]. *)
Definition DataFrame_of (data : list (list Cell)) (cols : list Cell)
  : result DataFrame :=
  match data with
  | [] => Returns {| columns := cols; rows := [] |}
  | _ =>
      if (width data =? length cols)%nat
      then Returns {| columns := cols; rows := map (pad (width data)) data |}
      else Raises ValueError
  end.

(** A field holding the delimiter, the quote character or a character
    of the line terminator (a line feed) is written quoted, with its
    quotes doubled; a missing value is the empty field. *)
Definition needs_quote (s : string) : bool :=
  PyStr.contains PyStr.COMMA s || PyStr.contains PyStr.DQUOTE s
  || PyStr.contains PyStr.LF s.

Definition quoted (s : string) : string :=
  String PyStr.DQUOTE
    (PyStr.replace PyStr.DQUOTE
       (String PyStr.DQUOTE (String PyStr.DQUOTE EmptyString)) s
     ++ String PyStr.DQUOTE EmptyString).

Definition csv_field (c : Cell) : string :=
  match c with
  | None => EmptyString
  | Some s => if needs_quote s then quoted s else s
  end.

Definition csv_line (row : list Cell) : string :=
  match row with
  | [c] =>
      (* a lone empty field is written quoted *)
      if PyStr.truthy (csv_field c) then csv_field c ++ String PyStr.LF EmptyString
      else quoted EmptyString ++ String PyStr.LF EmptyString
  | _ => PyStr.join (String PyStr.COMMA EmptyString) (map csv_field row)
         ++ String PyStr.LF EmptyString
  end.

(** Modelled from the spec: the delimited text that pandas'
    [DataFrame.to_csv(path, index=False)] writes (pandas is not under
    src/): a header row followed by the data rows, comma-separated, one
    line each. *)
Definition csv_text (df : DataFrame) : string :=
  List.fold_right (fun row acc => (csv_line row ++ acc)%string) EmptyString
                  (columns df :: rows df).

(** [Path(path).parent.is_dir()] *)
Definition parent_is_dir (fs : FS) (p : string) : bool :=
  match os.resolve fs p (os.path_start fs p)
                   (removelast (PyStr.split PyStr.SLASH p)) with
  | Returns node => bool_decide (node ∈ fs_dirs fs)
  | Raises _ => false
  end.

(** [df.to_csv(filepath, index=False)]: pandas refuses a path whose
    parent is not a directory with a plain [OSError] before it opens
    anything; then the file is opened (created or truncated) and the
    text written. A write that fails leaves the file empty. *)
Definition to_csv (df : DataFrame) (filepath : string) : Py unit :=
  fun w =>
    if negb (parent_is_dir (fs w) filepath) then (Raises (OSError filepath), w)
    else
      match os.open_for_write filepath (fs w) with
      | Raises e => (Raises e, w)
      | Returns node =>
          if bool_decide (node ∈ fs_failing (fs w))
          then (Raises (OSError filepath),
                {| fs := os.set_file node EmptyString (fs w); log := log w |})
          else (Returns tt,
                {| fs := os.set_file node (csv_text df) (fs w); log := log w |})
      end.

End pd.

(** Reading delimited text back. *)
Module csv.

Inductive state : Type := Unquoted | Quoted | QuoteSeen.

Definition snoc (s : string) (c : ascii) : string := s ++ String c EmptyString.

(** Modelled from the spec: the reader of delimited text that section 8
    re-reads the written file with (no reader is under src/):
    comma-separated fields, one record per line, quoted fields with
    doubled quotes. *)
Fixpoint parse (s : string) (st : state) (field : string)
         (row : list string) (acc : list (list string))
  : list (list string) :=
  match s with
  | EmptyString =>
      match st, field, row with
      | Unquoted, EmptyString, [] => acc
      | _, _, _ => acc ++ [row ++ [field]]
      end
  | String c r =>
      match st with
      | Unquoted =>
          if Ascii.eqb c PyStr.COMMA
          then parse r Unquoted EmptyString (row ++ [field]) acc
          else if Ascii.eqb c PyStr.LF
          then parse r Unquoted EmptyString [] (acc ++ [row ++ [field]])
          else if Ascii.eqb c PyStr.DQUOTE && negb (PyStr.truthy field)
          then parse r Quoted EmptyString row acc
          else parse r Unquoted (snoc field c) row acc
      | Quoted =>
          if Ascii.eqb c PyStr.DQUOTE
          then parse r QuoteSeen field row acc
          else parse r Quoted (snoc field c) row acc
      | QuoteSeen =>
          if Ascii.eqb c PyStr.DQUOTE
          then parse r Quoted (snoc field c) row acc
          else if Ascii.eqb c PyStr.COMMA
          then parse r Unquoted EmptyString (row ++ [field]) acc
          else if Ascii.eqb c PyStr.LF
          then parse r Unquoted EmptyString [] (acc ++ [row ++ [field]])
          else parse r Unquoted (snoc field c) row acc
      end
  end.

(** Modelled from the spec: the records of a delimited text, as the
    re-reading of section 8 yields them (no reader is under src/). *)
Definition reader (s : string) : list (list string) :=
  parse s Unquoted EmptyString [] [].

End csv.

(** ** Configuration values *)

(** What [yaml.safe_load] returns. *)
#[warnings="-register-all"] Inductive yaml : Type :=
| YNull
| YBool (b : bool)
| YInt (z : Z)
| YStr (s : string)
| YSeq (l : list yaml)
| YMap (m : gmap string yaml).

(** [obj[key]] for a string key: only a mapping can be subscripted by a
    string, and a missing key is a [KeyError]. *)
Definition getitem (obj : yaml) (key : string) : result yaml :=
  match obj with
  | YMap m =>
      match m !! key with
      | Some v => Returns v
      | None => Raises (KeyError key)
      end
  | _ => Raises TypeError
  end.

(** ** Pages *)

(** A pdfplumber page, as the answers of the three methods the module
    calls on it. *)
Record Page : Type := mkPage {
  page_search : yaml -> result (list Title);
  page_extract_tables : yaml -> result (list Table);
  page_find_tables : yaml -> result (list BBox)
}.

(** An HTTP response. *)
Record Response : Type := mkResponse { status_code : nat; content : string }.

(** [response.raise_for_status()] *)
Definition raise_for_status (r : Response) : result unit :=
  if (400 <=? status_code r)%nat && (status_code r <? 600)%nat
  then Raises RequestException else Returns tt.

(** ** The class [PDFReader] *)

(** An instance. [pdf_file] is [None] while the attribute does not exist,
    [Some None] when it holds Python's [None] and [Some (Some b)] when it
    holds a buffer. *)
Record PDFReader : Type := mkPDFReader {
  results_path : string;
  config : yaml;
  url : yaml;
  table_settings : yaml;
  title_pattern : yaml;
  pdf_file : option (option string)
}.

Definition NOT_LOADED : string :=
  "PDF file not loaded. Please call extract_pdf_from_url() first.".

Section Methods.

(** The outside world: the YAML parser, the HTTP client and the PDF
    parser. *)
Variable yaml_safe_load : string -> result yaml.
Variable requests_get : yaml -> result Response.
Variable pdfplumber_open : string -> result (list Page).

(** [load_config]: the two handlers log and re-raise; any other
    exception passes through. *)
Definition load_config (config_path : string) : Py yaml :=
  try_except
    (file <- fs_query (os.read_file config_path) ;;
     call (yaml_safe_load file))
    (fun e =>
       match e with
       | FileNotFoundError _ =>
           logging (Error_config_not_found config_path) ;;; raise e
       | YAMLError =>
           logging (Error_parsing_yaml e) ;;; raise e
       | _ => raise e
       end).

(** [__init__] *)
Definition init (config_file results_path : string) : Py PDFReader :=
  config <- load_config config_file ;;
  url <- call (getitem config "pdf_url") ;;
  table_settings <- call (getitem config "table_settings") ;;
  title_pattern <- call (getitem config "pattern") ;;
  ret {| results_path := results_path;
         config := config;
         url := url;
         table_settings := table_settings;
         title_pattern := title_pattern;
         pdf_file := None |}.

(** [extract_pdf_from_url]: returns the instance with [pdf_file] set. *)
Definition extract_pdf_from_url (self : PDFReader) : Py PDFReader :=
  try_except
    (response <- call (requests_get (url self)) ;;
     call (raise_for_status response) ;;;
     let self' := {| results_path := results_path self;
                     config := config self;
                     url := url self;
                     table_settings := table_settings self;
                     title_pattern := title_pattern self;
                     pdf_file := Some (Some (content response)) |} in
     logging Info_pdf_downloaded ;;;
     ret self')
    (fun e =>
       match e with
       | RequestException => logging (Error_downloading e) ;;; raise e
       | _ => raise e
       end).

(** [extract_titles_from_page] *)
Definition extract_titles_from_page (self : PDFReader) (page : Page)
  : result (list Title) :=
  page_search page (title_pattern self).

(** The body of the [try] in the loop of [extract_tables_from_page]. *)
Definition table_body (self : PDFReader) (page : Page) (titles : list Title)
           (index : nat) (table : Table) (tables_dict : PyDict.t DataFrame)
  : Py (PyDict.t DataFrame) :=
  found <- call (page_find_tables page (table_settings self)) ;;
  found_i <- call (list_getitem found index) ;;
  let table_bbox := bbox_1 found_i in
  match find_title_for_table titles table_bbox with
  | Some title =>
      if PyStr.truthy title then
        logging (Info_extracted_title title) ;;;
        header <- call (list_getitem table 0) ;;
        df <- call (pd.DataFrame_of (tl table) header) ;;
        ret (PyDict.set title df tables_dict)
      else ret tables_dict
  | None => ret tables_dict
  end.

(** One iteration of the loop: the [try] with its handler. *)
Definition table_step (self : PDFReader) (page : Page) (page_num : nat)
           (titles : list Title) (index : nat) (table : Table)
           (tables_dict : PyDict.t DataFrame) : Py (PyDict.t DataFrame) :=
  try_except
    (table_body self page titles index table tables_dict)
    (fun e => logging (Error_extracting_tables page_num e) ;;; ret tables_dict).

(** [for index, table in enumerate(tables)], from [index] on. *)
Fixpoint tables_loop (self : PDFReader) (page : Page) (page_num : nat)
         (titles : list Title) (index : nat) (tables : list Table)
         (tables_dict : PyDict.t DataFrame) : Py (PyDict.t DataFrame) :=
  match tables with
  | [] => ret tables_dict
  | table :: rest =>
      tables_dict' <- table_step self page page_num titles index table tables_dict ;;
      tables_loop self page page_num titles (S index) rest tables_dict'
  end.

(** [extract_tables_from_page] *)
Definition extract_tables_from_page (self : PDFReader) (page : Page)
           (page_num : nat) : Py (PyDict.t DataFrame) :=
  titles <- call (extract_titles_from_page self page) ;;
  tables <- call (page_extract_tables page (table_settings self)) ;;
  match tables with
  | [] => ret PyDict.empty
  | _ => tables_loop self page page_num titles 0 tables PyDict.empty
  end.

(** [for page_num, page in enumerate(pdf.pages, start=...)] *)
Fixpoint pages_loop (self : PDFReader) (page_num : nat) (pages : list Page)
         (combined_tables : PyDict.t DataFrame) : Py (PyDict.t DataFrame) :=
  match pages with
  | [] => ret combined_tables
  | page :: rest =>
      tables_dict <- extract_tables_from_page self page page_num ;;
      pages_loop self (S page_num) rest (PyDict.update combined_tables tables_dict)
  end.

(** [extract_content_from_pdf] *)
Definition extract_content_from_pdf (self : PDFReader) : Py (PyDict.t DataFrame) :=
  match pdf_file self with
  | None => raise (AttributeError "pdf_file")
  | Some None => raise (Exception NOT_LOADED)
  | Some (Some buffer) =>
      try_except
        (pages <- call (pdfplumber_open buffer) ;;
         pages_loop self 1 pages PyDict.empty)
        (fun e => logging (Error_processing_pdf e) ;;; raise e)
  end.

(** The file name [save_as_csv] derives from a title. *)
Definition filename_of (title : string) : string :=
  PyStr.lower (PyStr.replace PyStr.SPACE "_" (title ++ ".csv")).

(** [save_as_csv] *)
Definition save_as_csv (self : PDFReader) (df : DataFrame) (title : string)
  : Py unit :=
  let results_path := os.path_join (results_path self) "results" in
  fs_update (os.makedirs results_path) ;;;
  let filename := filename_of title in
  let filepath := os.path_join results_path filename in
  try_except
    (pd.to_csv df filepath ;;;
     logging (Info_table_saved filepath))
    (fun e => logging (Error_saving_csv e)).

(** [for title, table in tables.items()] *)
Fixpoint items_loop (self : PDFReader) (items : list (string * DataFrame))
  : Py unit :=
  match items with
  | [] => ret tt
  | (title, table) :: rest =>
      save_as_csv self table title ;;; items_loop self rest
  end.

(** [load_tables] *)
Definition load_tables (self : PDFReader) (tables : PyDict.t DataFrame)
  : Py unit :=
  if negb (PyDict.truthy tables) then logging Error_no_valid_tables
  else items_loop self tables.

(** [main], after the command line is parsed. *)
Definition main (config_file results_path : string) : Py unit :=
  extractor <- init config_file results_path ;;
  extractor <- extract_pdf_from_url extractor ;;
  raw_tables <- extract_content_from_pdf extractor ;;
  load_tables extractor raw_tables.

End Methods.

(** ** Specification predicates *)

(** [x] is a title of [S] above the table top [t] and no title of [S]
    above [t] is lower on the page. *)
Definition closest_above (S : list Title) (t : Q) (x : Title) : Prop :=
  In x S /\ (top x < t)%Q /\
  forall y, In y S -> (top y < t)%Q -> (top y <= top x)%Q.

(** The associator as section 4.5 words it: the text of a closest title
    above, and no match when no title is above. *)
Definition associate_as_stated (S : list Title) (t : Q) : Prop :=
  ((exists x, In x S /\ (top x < t)%Q) ->
   exists x, closest_above S t x /\ find_title_for_table S t = Some (text x))
  /\ ((forall x, In x S -> ~ (top x < t)%Q) -> find_title_for_table S t = None).

(** [text.replace(newline, empty)] *)
Definition strip_newlines (s : string) : string :=
  PyStr.replace PyStr.LF EmptyString s.

(** The character [save_as_csv] writes for a character of the title: an
    underscore for a space, the lower-case letter for an upper-case one,
    and every other character as it is. *)
Definition slug_char (c : ascii) : ascii :=
  if Ascii.eqb c PyStr.SPACE then PyStr.UNDERSCORE
  else if PyStr.is_upper c then PyStr.lower_char c
  else c.

Fixpoint map_string (f : ascii -> ascii) (s : string) : string :=
  match s with
  | EmptyString => EmptyString
  | String c r => String (f c) (map_string f r)
  end.

(** The title lowercased and with its spaces replaced by underscores. *)
Definition slug (title : string) : string :=
  PyStr.lower (PyStr.replace PyStr.SPACE "_" title).

(** The world after some more records are logged. *)
Definition logged (w : World) (records : list LogRecord) : World :=
  {| fs := fs w; log := log w ++ records |}.

(** A run of the page loop that returns: the pages in document order,
    numbered from [page_num], each with the mapping its processing
    returned. *)
Inductive pages_trace (self : PDFReader)
  : nat -> list Page -> World -> list (PyDict.t DataFrame) -> World -> Prop :=
| trace_done (page_num : nat) (w : World) :
    pages_trace self page_num [] w [] w
| trace_page (page_num : nat) (page : Page) (rest : list Page) (w w1 w2 : World)
             (tables_dict : PyDict.t DataFrame) (ds : list (PyDict.t DataFrame)) :
    extract_tables_from_page self page page_num w = (Returns tables_dict, w1) ->
    pages_trace self (S page_num) rest w1 ds w2 ->
    pages_trace self page_num (page :: rest) w (tables_dict :: ds) w2.

(** What a mapping returned by the page processor holds. *)
Definition page_dict_ok (titles : list Title) (d : PyDict.t DataFrame) : Prop :=
  List.NoDup (PyDict.keys d)
  /\ forall k, In k (PyDict.keys d) ->
               exists b, find_title_for_table titles b = Some k.

(** ** A small world for the examples *)

Module Sample.

Definition full_config : yaml :=
  YMap (<["pdf_url" := YStr "http://example.org/report.pdf"]>
        (<["table_settings" := YMap ∅]>
         (<["pattern" := YStr "Table [0-9]+"]> ∅))).

Definition partial_config : yaml :=
  YMap (<["pdf_url" := YStr "http://example.org/report.pdf"]> ∅).

(** A parser that knows two documents. *)
Definition yaml_safe_load (doc : string) : result yaml :=
  if String.eqb doc "full" then Returns full_config
  else if String.eqb doc "partial" then Returns partial_config
  else Raises YAMLError.

Definition requests_get (_ : yaml) : result Response :=
  Returns {| status_code := 200; content := "%PDF" |}.

(** One page with the title [Table 1] at 50 above a ragged table whose
    top is at 60, followed by a well-formed one at 70. *)
Definition page1 : Page :=
  {| page_search := fun _ => Returns [mkTitle "Table 1" 50];
     page_extract_tables := fun _ =>
       Returns [ [[Some "A"; Some "B"]; [Some "1"; Some "2"; Some "3"]];
                 [[Some "A"; Some "B"]; [Some "1"; Some "2"]] ];
     page_find_tables := fun _ => Returns [(0, 60, 100, 80); (0, 70, 100, 90)]%Q |}.

(** A page with a table and no title. *)
Definition page2 : Page :=
  {| page_search := fun _ => Returns [];
     page_extract_tables := fun _ => Returns [ [[Some "C"]; [Some "3"]] ];
     page_find_tables := fun _ => Returns [(0, 20, 100, 40)]%Q |}.

Definition pdfplumber_open (_ : string) : result (list Page) :=
  Returns [page1; page2].

(** Two pages whose only table sits under the same title [Summary]. *)
Definition table_A : Table := [[Some "k"; Some "v"]; [Some "a"; Some "1"]].
Definition table_B : Table := [[Some "k"; Some "v"]; [Some "b"; Some "2"]].

Definition summary_page (table : Table) : Page :=
  {| page_search := fun _ => Returns [mkTitle "Summary" 30];
     page_extract_tables := fun _ => Returns [table];
     page_find_tables := fun _ => Returns [(0, 40, 100, 80)]%Q |}.

Definition df_A : DataFrame :=
  {| columns := [Some "k"; Some "v"]; rows := [[Some "a"; Some "1"]] |}.
Definition df_B : DataFrame :=
  {| columns := [Some "k"; Some "v"]; rows := [[Some "b"; Some "2"]] |}.

Definition summary_open (_ : string) : result (list Page) :=
  Returns [summary_page table_A; summary_page table_B].

Definition loaded_reader : PDFReader :=
  {| results_path := "/out";
     config := full_config;
     url := YStr "http://example.org/report.pdf";
     table_settings := YMap ∅;
     title_pattern := YStr "Table [0-9]+";
     pdf_file := Some (Some "%PDF") |}.

Definition fs0 : FS :=
  {| fs_dirs := {[ [] ]};
     fs_files := <[ ["config.yml"] := "full" ]>
                 (<[ ["partial.yml"] := "partial" ]> ∅);
     fs_cwd := [];
     fs_failing := ∅ |}.

Definition world0 : World := {| fs := fs0; log := [] |}.

Definition reader0 : PDFReader :=
  {| results_path := "/out";
     config := full_config;
     url := YStr "http://example.org/report.pdf";
     table_settings := YMap ∅;
     title_pattern := YStr "Table [0-9]+";
     pdf_file := None |}.

End Sample.

(** ** Reading the page processor table by table *)

(** The entry one iteration of the table loop adds to the mapping, if it
    adds one: the title found for the table and the frame built from it. *)
Definition table_outcome (self : PDFReader) (page : Page) (titles : list Title)
           (index : nat) (table : Table) : option (string * DataFrame) :=
  match page_find_tables page (table_settings self) with
  | Returns found =>
      match nth_error found index with
      | Some b =>
          match find_title_for_table titles (bbox_1 b) with
          | Some title =>
              if PyStr.truthy title then
                match table with
                | header :: data =>
                    match pd.DataFrame_of data header with
                    | Returns df => Some (title, df)
                    | Raises _ => None
                    end
                | [] => None
                end
              else None
          | None => None
          end
      | None => None
      end
  | Raises _ => None
  end.

(** The entries of the tables of a page, in detection order. *)
Fixpoint page_entries (self : PDFReader) (page : Page) (titles : list Title)
         (index : nat) (tables : list Table) : list (string * DataFrame) :=
  match tables with
  | [] => []
  | table :: rest =>
      match table_outcome self page titles index table with
      | Some entry => entry :: page_entries self page titles (S index) rest
      | None => page_entries self page titles (S index) rest
      end
  end.

(** The instance after [self.pdf_file = buffer]. *)
Definition with_pdf_file (self : PDFReader) (buffer : string) : PDFReader :=
  {| results_path := results_path self;
     config := config self;
     url := url self;
     table_settings := table_settings self;
     title_pattern := title_pattern self;
     pdf_file := Some (Some buffer) |}.

(** The path [save_as_csv] writes the table of a title to. *)
Definition filepath_of (self : PDFReader) (title : string) : string :=
  os.path_join (os.path_join (results_path self) "results") (filename_of title).


(** Further sample data. *)
Module Scenario.

(** A page with two tables under the same title. *)
Definition twin_page : Page :=
  {| page_search := fun _ => Returns [mkTitle "Totals" 10];
     page_extract_tables := fun _ =>
       Returns [ [[Some "k"]; [Some "old"]]; [[Some "k"]; [Some "new"]] ];
     page_find_tables := fun _ => Returns [(0, 20, 100, 30); (0, 40, 100, 50)]%Q |}.

(** A page whose text layer cannot be searched. *)
Definition broken_page : Page :=
  {| page_search := fun _ => Raises PdfError;
     page_extract_tables := fun _ => Returns [];
     page_find_tables := fun _ => Returns [] |}.

Definition broken_open (_ : string) : result (list Page) :=
  Returns [Sample.summary_page Sample.table_A; broken_page].

Definition failing_get (_ : yaml) : result Response :=
  Returns {| status_code := 404; content := "not found" |}.

(** A parser for which every document is a sequence. *)
Definition seq_load (_ : string) : result yaml := Returns (YSeq []).

End Scenario.





(** ** Titles beyond ASCII *)

(** The pipeline above works on ASCII text, where [str.lower] works
    character by character ([PyStr.lower]). For an arbitrary title
    [str.lower] reads the Unicode character database and looks at the
    context of a capital sigma; this module has the file name of
    [save_as_csv] for such titles. *)
Module Unicode.

(** A Python [str] as its code points. *)
Definition str : Type := list N.

(** The part of the Unicode character database that [str.lower] reads,
    for the code points beyond ASCII. *)
Record CaseTables : Type := mkCaseTables {
  lower_full : N -> list N;
  cased : N -> bool;
  case_ignorable : N -> bool
}.

Definition SPACE : N := 32.
Definition UNDERSCORE : N := 95.
Definition CAPITAL_SIGMA : N := 931.
Definition FINAL_SIGMA : N := 962.
Definition SMALL_SIGMA : N := 963.

Definition is_ascii (s : str) : bool := forallb (fun c => c <? 128)%N s.

Definition ascii_lower (c : N) : N :=
  if ((65 <=? c) && (c <=? 90))%N then (c + 32)%N else c.

(** The lower-case mapping of one code point. *)
Definition to_lower_full (t : CaseTables) (c : N) : list N :=
  if (c <? 128)%N then [ascii_lower c] else lower_full t c.

Definition is_cased (t : CaseTables) (c : N) : bool :=
  if (c <? 128)%N
  then ((65 <=? c) && (c <=? 90) || (97 <=? c) && (c <=? 122))%N
  else cased t c.

(** In ASCII the apostrophe, the full stop, the colon, the circumflex
    and the grave accent are case-ignorable. *)
Definition is_case_ignorable (t : CaseTables) (c : N) : bool :=
  if (c <? 128)%N
  then ((c =? 39) || (c =? 46) || (c =? 58) || (c =? 94) || (c =? 96))%N
  else case_ignorable t c.

(** The first code point that is not case-ignorable. *)
Fixpoint skip_ignorable (t : CaseTables) (s : str) : option N :=
  match s with
  | [] => None
  | c :: r => if is_case_ignorable t c then skip_ignorable t r else Some c
  end.

(** A capital sigma is final when a cased letter comes before it and
    none comes after it, case-ignorable code points set aside. *)
Definition final_sigma (t : CaseTables) (before_rev after : str) : bool :=
  match skip_ignorable t before_rev with
  | Some c =>
      is_cased t c
      && match skip_ignorable t after with
         | Some d => negb (is_cased t d)
         | None => true
         end
  | None => false
  end.

(** [before_rev] holds the code points already passed, last first. *)
Fixpoint do_lower (t : CaseTables) (before_rev : str) (s : str) : str :=
  match s with
  | [] => []
  | c :: r =>
      (if (c =? CAPITAL_SIGMA)%N
       then [if final_sigma t before_rev r then FINAL_SIGMA else SMALL_SIGMA]
       else to_lower_full t c)
      ++ do_lower t (c :: before_rev) r
  end.

(** [s.lower()] *)
Definition lower (t : CaseTables) (s : str) : str := do_lower t [] s.

(** [s.replace(old, new)] for a one-character [old]. *)
Fixpoint replace (old : N) (new : str) (s : str) : str :=
  match s with
  | [] => []
  | c :: r => if (c =? old)%N then new ++ replace old new r
              else c :: replace old new r
  end.

(** The code points of an ASCII string. *)
Definition of_string (s : string) : str :=
  map N_of_ascii (list_ascii_of_string s).

(** The file name [save_as_csv] derives from a title (line 155). *)
Definition filename_of (t : CaseTables) (title : str) : str :=
  lower t (replace SPACE [UNDERSCORE] (title ++ of_string ".csv")).

(** What [save_as_csv] writes for an ASCII character of the title. *)
Definition ascii_slug (c : N) : N :=
  if (c =? SPACE)%N then UNDERSCORE else ascii_lower c.

(** The entries of the Unicode case tables for the Greek letters alpha
    and sigma; the examples use no other code point beyond ASCII. *)
Definition greek : CaseTables :=
  {| lower_full := fun c => if (c =? 913)%N then [945%N] else [c];
     cased := fun c => ((c =? 913) || (c =? 931) || (c =? 945)
                        || (c =? 962) || (c =? 963))%N;
     case_ignorable := fun _ => false |}.

End Unicode.


(** * Properties *)

(** ** The associator *)

Lemma Qltb_lt (x y : Q) : Qltb x y = true <-> (x < y)%Q.
Proof.
  unfold Qltb. rewrite negb_true_iff, <- not_true_iff_false, Qle_bool_iff.
  split; [apply Qnot_le_lt | apply Qlt_not_le].
Qed.

Lemma Qltb_ge (x y : Q) : Qltb x y = false <-> (y <= x)%Q.
Proof.
  unfold Qltb. rewrite negb_false_iff. apply Qle_bool_iff.
Qed.

Lemma fold_max_spec (r : list Q) (x : Q) :
  let m := fold_left (fun m y => if Qltb m y then y else m) r x in
  (m = x \/ In m r) /\ (x <= m)%Q /\ forall y, In y r -> (y <= m)%Q.
Proof.
  revert x. induction r as [|a r IH]; intros x; simpl.
  - split; [now left|]. split; [apply Qle_refl | tauto].
  - destruct (Qltb x a) eqn:E.
    + destruct (IH a) as (Hin & Hle & Hall).
      apply Qltb_lt in E.
      split; [destruct Hin as [-> | Hin]; auto|].
      split; [lra|]. intros y [<- | Hy]; auto.
    + destruct (IH x) as (Hin & Hle & Hall).
      apply Qltb_ge in E.
      split; [destruct Hin as [-> | Hin]; auto|].
      split; [assumption|]. intros y [<- | Hy]; [lra | auto].
Qed.

Lemma py_max_None (l : list Q) : py_max l = None <-> l = [].
Proof. destruct l; simpl; split; congruence. Qed.

Lemma py_max_Some (l : list Q) (m : Q) :
  py_max l = Some m -> In m l /\ forall y, In y l -> (y <= m)%Q.
Proof.
  destruct l as [|x r]; simpl; [discriminate|].
  intros [= <-]. destruct (fold_max_spec r x) as (Hin & Hle & Hall).
  split; [destruct Hin as [-> | Hin]; auto|].
  intros y [<- | Hy]; auto.
Qed.

Lemma filter_first {A} (p : A -> bool) (l1 : list A) (x : A) (l2 : list A) :
  (forall y, In y l1 -> p y = false) -> p x = true ->
  List.filter p (l1 ++ x :: l2) = x :: List.filter p l2.
Proof.
  intros Hl1 Hx. induction l1 as [|a l1 IH]; simpl.
  - now rewrite Hx.
  - rewrite (Hl1 a) by now left. apply IH. intros y Hy. apply Hl1. now right.
Qed.

Lemma above_filter (S : list Title) (t : Q) (x : Title) :
  In x (List.filter (fun title => Qltb (top title) t) S) <->
  In x S /\ (top x < t)%Q.
Proof. rewrite List.filter_In, Qltb_lt. tauto. Qed.

(** The value of [title_top] when some title is above the table. *)
Lemma title_top_closest (S : list Title) (t : Q) (x : Title) :
  closest_above S t x ->
  exists m,
    py_max (map top (List.filter (fun title => Qltb (top title) t) S)) = Some m
    /\ (m == top x)%Q.
Proof.
  intros (Hin & Hlt & Hmax).
  destruct (py_max _) as [m|] eqn:E.
  - exists m. split; [reflexivity|].
    apply py_max_Some in E. destruct E as (Hm & Hall).
    apply List.in_map_iff in Hm. destruct Hm as (z & <- & Hz).
    apply above_filter in Hz. destruct Hz as (HzS & Hzt).
    apply Qle_antisym; [now apply Hmax|].
    apply Hall, List.in_map, above_filter. now split.
  - apply py_max_None in E.
    assert (Hx : In (top x) (map top (List.filter (fun title => Qltb (top title) t) S)))
      by (apply List.in_map, above_filter; now split).
    rewrite E in Hx. destruct Hx.
Qed.

Lemma find_title_none_above (S : list Title) (t : Q) :
  (forall x, In x S -> ~ (top x < t)%Q) -> find_title_for_table S t = None.
Proof.
  intros Hnone. unfold find_title_for_table.
  assert (E : List.filter (fun title => Qltb (top title) t) S = []).
  { destruct (List.filter _ S) as [|z l] eqn:E; [reflexivity|].
    assert (Hz : In z (List.filter (fun title => Qltb (top title) t) S))
      by (rewrite E; now left).
    apply above_filter in Hz. destruct Hz as (HzS & Hzt).
    now destruct (Hnone z HzS). }
  now rewrite E.
Qed.

Lemma find_title_first_closest (S l1 l2 : list Title) (t : Q) (x : Title) :
  S = l1 ++ x :: l2 ->
  closest_above S t x ->
  (forall y, In y l1 -> ~ (top y == top x)%Q) ->
  ~ (top x == 0)%Q ->
  find_title_for_table S t = Some (strip_newlines (text x)).
Proof.
  intros HS Hc Hfirst Hnz. unfold find_title_for_table.
  destruct (title_top_closest S t x Hc) as (m & -> & Hm).
  assert (Ht : float_truthy m = true).
  { unfold float_truthy. rewrite negb_true_iff, <- not_true_iff_false, Qeq_bool_iff.
    intros H0. apply Hnz. now rewrite <- Hm. }
  rewrite Ht, HS, filter_first; [reflexivity| |].
  - intros y Hy. rewrite <- not_true_iff_false, Qeq_bool_iff.
    intros Heq. apply (Hfirst y Hy). now rewrite Heq.
  - apply Qeq_bool_iff. now symmetry.
Qed.

(** The example of section 8: titles at 10, 50 and 90 and a table at 60
    resolve to the title at 50. *)
Example find_title_10_50_90 :
  find_title_for_table
    [mkTitle "Table 1" 10; mkTitle "Table 2" 50; mkTitle "Table 3" 90] 60
  = Some "Table 2".
Proof. reflexivity. Qed.

(** A title at the very top of the page ([top] zero) is never matched:
    the test [if title_top:] takes zero for "no title". *)
Example find_title_top_zero :
  find_title_for_table [mkTitle "Table 1" 0] 60 = None.
Proof. reflexivity. Qed.

(** C1 (as stated) does not hold: the text returned has its newlines
    removed, and a closest title at position zero is not returned. *)
Lemma associate_as_stated_fails :
  ~ associate_as_stated [mkTitle (String "A" (String PyStr.LF "B")) 50] 60
  /\ ~ associate_as_stated [mkTitle "Table 1" 0] 60.
Proof.
  split; intros [Hsome _].
  - destruct Hsome as (x & (Hin & _) & Hfind).
    + eexists. split; [now left | reflexivity].
    + destruct Hin as [<- | []]. vm_compute in Hfind. discriminate.
  - destruct Hsome as (x & _ & Hfind).
    + eexists. split; [now left | reflexivity].
    + vm_compute in Hfind. discriminate.
Qed.

(** C1 (amended): when no title is strictly above the table top,
    [find_title_for_table] returns no match; when [x] is the first title
    of [S] at the greatest position strictly above the table top and that
    position is not zero, it returns the text of [x] with its newline
    characters removed. *)
Theorem find_title_for_table_closest (S : list Title) (t : Q) :
  ((forall x, In x S -> ~ (top x < t)%Q) -> find_title_for_table S t = None)
  /\ (forall l1 x l2,
         S = l1 ++ x :: l2 ->
         closest_above S t x ->
         (forall y, In y l1 -> ~ (top y == top x)%Q) ->
         ~ (top x == 0)%Q ->
         find_title_for_table S t = Some (strip_newlines (text x))).
Proof.
  split; [apply find_title_none_above|].
  intros l1 x l2. apply find_title_first_closest.
Qed.

Lemma find_title_for_table_closest_witness :
  find_title_for_table [mkTitle "Table 3" 90] 60 = None
  /\ find_title_for_table
       [mkTitle "Table 1" 10; mkTitle "Table 2" 50; mkTitle "Table 3" 90] 60
     = Some (strip_newlines "Table 2").
Proof.
  split.
  - apply (proj1 (find_title_for_table_closest [mkTitle "Table 3" 90] 60)).
    intros x [<- | []]. simpl. lra.
  - apply (proj2 (find_title_for_table_closest
                    [mkTitle "Table 1" 10; mkTitle "Table 2" 50; mkTitle "Table 3" 90] 60)
                 [mkTitle "Table 1" 10] (mkTitle "Table 2" 50) [mkTitle "Table 3" 90]).
    + reflexivity.
    + split; [right; now left|]. split; [simpl; lra|].
      intros y [<- | [<- | [<- | []]]]; simpl; lra.
    + intros y [<- | []]. simpl. lra.
    + simpl. lra.
Defined.

(** ** File names *)

Lemma str_app_nil (t : string) : (EmptyString ++ t)%string = t.
Proof. reflexivity. Qed.

Lemma str_app_cons (c : ascii) (s t : string) :
  (String c s ++ t)%string = String c (s ++ t).
Proof. reflexivity. Qed.

Lemma str_app_assoc (s t u : string) :
  (s ++ (t ++ u))%string = ((s ++ t) ++ u)%string.
Proof.
  induction s as [|c s IH]; [reflexivity|].
  now rewrite !str_app_cons, IH.
Qed.

Ltac str_simpl := repeat (rewrite ?str_app_cons, ?str_app_nil; simpl).

Lemma replace_app (old : ascii) (new a b : string) :
  PyStr.replace old new (a ++ b) = (PyStr.replace old new a ++ PyStr.replace old new b)%string.
Proof.
  induction a as [|c a IH]; str_simpl; [reflexivity|].
  destruct (Ascii.eqb c old); rewrite IH; str_simpl; [|reflexivity].
  apply str_app_assoc.
Qed.

Lemma lower_app (a b : string) :
  PyStr.lower (a ++ b) = (PyStr.lower a ++ PyStr.lower b)%string.
Proof. induction a as [|c a IH]; str_simpl; [reflexivity | now rewrite IH]. Qed.

Lemma slug_map (title : string) : slug title = map_string slug_char title.
Proof.
  unfold slug. induction title as [|c r IH]; simpl; [reflexivity|].
  unfold slug_char at 1. destruct (Ascii.eqb c PyStr.SPACE) eqn:E; str_simpl.
  - now rewrite IH.
  - rewrite IH. f_equal. unfold PyStr.lower_char. now destruct (PyStr.is_upper c).
Qed.

Lemma slug_char_idempotent (c : ascii) : slug_char (slug_char c) = slug_char c.
Proof. destruct c as [[] [] [] [] [] [] [] []]; reflexivity. Qed.

Lemma slug_idempotent (title : string) : slug (slug title) = slug title.
Proof.
  rewrite !slug_map. induction title as [|c r IH]; simpl; [reflexivity|].
  now rewrite slug_char_idempotent, IH.
Qed.

Lemma filename_of_slug (title : string) :
  filename_of title = (slug title ++ ".csv")%string.
Proof. unfold filename_of, slug. now rewrite replace_app, lower_app. Qed.

(** On ASCII strings the file name is the title lowercased, with spaces
    replaced by underscores (in either order) and [.csv] appended, the
    title mapped character by character. *)
Lemma filename_of_ascii_string (title : string) :
  filename_of title
  = (PyStr.lower (PyStr.replace PyStr.SPACE "_" title) ++ ".csv")%string
  /\ filename_of title
     = (PyStr.replace PyStr.SPACE "_" (PyStr.lower title) ++ ".csv")%string
  /\ filename_of title = (map_string slug_char title ++ ".csv")%string
  /\ slug (slug title) = slug title
  /\ filename_of "Table One" = "table_one.csv"
  /\ filename_of "Q1/Q2: a*b?" = "q1/q2:_a*b?.csv".
Proof.
  split; [apply filename_of_slug|].
  split.
  - rewrite filename_of_slug. f_equal. unfold slug.
    induction title as [|c r IH]; simpl; [reflexivity|].
    destruct (Ascii.eqb c PyStr.SPACE) eqn:E.
    + apply Ascii.eqb_eq in E. subst c. str_simpl. now rewrite IH.
    + simpl. rewrite IH.
      replace (Ascii.eqb (PyStr.lower_char c) PyStr.SPACE) with false; [reflexivity|].
      revert E. clear. destruct c as [[] [] [] [] [] [] [] []]; vm_compute; congruence.
  - split; [now rewrite filename_of_slug, slug_map|].
    split; [apply slug_idempotent|].
    split; reflexivity.
Qed.

(** ** Reasoning about methods *)

Lemma bind_Returns {A B} (c : Py A) (k : A -> Py B) (w w1 : World) (v : A) :
  c w = (Returns v, w1) -> bind c k w = k v w1.
Proof. intros H. unfold bind. now rewrite H. Qed.

Lemma bind_Raises {A B} (c : Py A) (k : A -> Py B) (w w1 : World) (e : exn) :
  c w = (Raises e, w1) -> bind c k w = (Raises e, w1).
Proof. intros H. unfold bind. now rewrite H. Qed.

Lemma bind_inv {A B} (c : Py A) (k : A -> Py B) (w w' : World) (b : B) :
  bind c k w = (Returns b, w') ->
  exists v w1, c w = (Returns v, w1) /\ k v w1 = (Returns b, w').
Proof.
  unfold bind. destruct (c w) as [[v|e] w1]; [eauto | discriminate].
Qed.

(** ** Construction and the two pre-conditions of the pipeline *)

Section Construction.

Variable yaml_safe_load : string -> result yaml.
Variable requests_get : yaml -> result Response.
Variable pdfplumber_open : string -> result (list Page).

(** A reader that [__init__] returns has no [pdf_file] attribute. *)
Lemma init_pdf_file (config_file results_path : string) (w w1 : World)
      (self : PDFReader) :
  init yaml_safe_load config_file results_path w = (Returns self, w1) ->
  pdf_file self = None.
Proof.
  unfold init. intros H.
  apply bind_inv in H. destruct H as (c & w2 & _ & H).
  apply bind_inv in H. destruct H as (u & w3 & _ & H).
  apply bind_inv in H. destruct H as (ts & w4 & _ & H).
  apply bind_inv in H. destruct H as (pat & w5 & _ & H).
  unfold ret in H. now inversion H.
Qed.

(** [extract_pdf_from_url] never stores Python's [None] in [pdf_file]. *)
Lemma extract_pdf_from_url_pdf_file (self self' : PDFReader) (w w1 : World) :
  extract_pdf_from_url requests_get self w = (Returns self', w1) ->
  exists buffer, pdf_file self' = Some (Some buffer).
Proof.
  unfold extract_pdf_from_url, try_except, bind, call, logging, ret.
  destruct (requests_get (url self)) as [response|e]; simpl.
  - destruct (raise_for_status response) as [[]|e]; simpl.
    + intros [= <- _]. simpl. eauto.
    + destruct e; simpl; discriminate.
  - destruct e; simpl; discriminate.
Qed.

(** C2: on a reader fresh from [__init__], [extract_content_from_pdf]
    raises [AttributeError] at the test [self.pdf_file is None]; the
    exception of line 130 is not the one raised. *)
Theorem extract_content_before_fetch (config_file results_path : string)
        (w w1 w2 : World) (self : PDFReader) :
  init yaml_safe_load config_file results_path w = (Returns self, w1) ->
  extract_content_from_pdf pdfplumber_open self w2
  = (Raises (AttributeError "pdf_file"), w2)
  /\ extract_content_from_pdf pdfplumber_open self w2
     <> (Raises (Exception NOT_LOADED), w2).
Proof.
  intros H. apply init_pdf_file in H.
  unfold extract_content_from_pdf. rewrite H. unfold raise.
  split; [reflexivity | congruence].
Qed.

(** C3: when the configuration file parses as a mapping that lacks one
    of the keys [pdf_url], [table_settings], [pattern], [__init__] raises
    [KeyError] for a missing key and returns no reader. *)
Theorem init_missing_key (config_file results_path doc : string)
        (m : gmap string yaml) (w : World) :
  os.read_file config_file (fs w) = Returns doc ->
  yaml_safe_load doc = Returns (YMap m) ->
  m !! "pdf_url" = None \/ m !! "table_settings" = None \/ m !! "pattern" = None ->
  exists key,
    In key ["pdf_url"; "table_settings"; "pattern"]
    /\ m !! key = None
    /\ init yaml_safe_load config_file results_path w = (Raises (KeyError key), w).
Proof.
  intros Hread Hload Hmiss.
  assert (Hcfg : load_config yaml_safe_load config_file w = (Returns (YMap m), w)).
  { unfold load_config, try_except, bind, fs_query, call.
    now rewrite Hread, Hload. }
  unfold init. rewrite (bind_Returns _ _ _ _ _ Hcfg).
  unfold bind, call, getitem, ret.
  destruct (m !! "pdf_url") as [u|] eqn:E1.
  - destruct (m !! "table_settings") as [ts|] eqn:E2.
    + destruct (m !! "pattern") as [p|] eqn:E3.
      * destruct Hmiss as [H | [H | H]]; discriminate.
      * exists "pattern". simpl. auto.
    + exists "table_settings". simpl. auto.
  - exists "pdf_url". simpl. auto.
Qed.

End Construction.

Lemma extract_content_before_fetch_witness :
  init Sample.yaml_safe_load "config.yml" "/out" Sample.world0
  = (Returns Sample.reader0, Sample.world0)
  /\ extract_content_from_pdf Sample.pdfplumber_open Sample.reader0 Sample.world0
     = (Raises (AttributeError "pdf_file"), Sample.world0).
Proof.
  assert (H : init Sample.yaml_safe_load "config.yml" "/out" Sample.world0
              = (Returns Sample.reader0, Sample.world0)) by (vm_compute; reflexivity).
  split; [exact H|].
  exact (proj1 (extract_content_before_fetch Sample.yaml_safe_load Sample.pdfplumber_open
                  "config.yml" "/out" Sample.world0 Sample.world0 Sample.world0
                  Sample.reader0 H)).
Defined.

Lemma init_missing_key_witness :
  exists key,
    In key ["pdf_url"; "table_settings"; "pattern"]
    /\ init Sample.yaml_safe_load "partial.yml" "/out" Sample.world0
       = (Raises (KeyError key), Sample.world0).
Proof.
  destruct (init_missing_key Sample.yaml_safe_load "partial.yml" "/out" "partial"
              (<["pdf_url" := YStr "http://example.org/report.pdf"]> ∅)
              Sample.world0) as (key & Hin & _ & Hinit).
  - vm_compute. reflexivity.
  - reflexivity.
  - right. left. vm_compute. reflexivity.
  - exists key. split; assumption.
Defined.

(** ** Dictionaries *)

Lemma get_set {V} (k k' : string) (v : V) (d : PyDict.t V) :
  PyDict.get k (PyDict.set k' v d)
  = if String.eqb k k' then Some v else PyDict.get k d.
Proof.
  induction d as [|[k1 v1] d IH]; simpl.
  - reflexivity.
  - destruct (String.eqb k' k1) eqn:E1; simpl.
    + apply String.eqb_eq in E1. subst k1.
      now destruct (String.eqb k k').
    + rewrite IH. destruct (String.eqb k k1) eqn:E2; [|reflexivity].
      apply String.eqb_eq in E2. subst k1.
      rewrite String.eqb_sym in E1. now rewrite E1.
Qed.

Lemma keys_set {V} (k k' : string) (v : V) (d : PyDict.t V) :
  In k (PyDict.keys (PyDict.set k' v d)) <-> k = k' \/ In k (PyDict.keys d).
Proof.
  unfold PyDict.keys. induction d as [|[k1 v1] d IH]; simpl.
  - intuition.
  - destruct (String.eqb k' k1) eqn:E1; simpl.
    + apply String.eqb_eq in E1. subst k1. intuition.
    + rewrite IH. intuition.
Qed.

Lemma get_None_keys {V} (k : string) (d : PyDict.t V) :
  PyDict.get k d = None <-> ~ In k (PyDict.keys d).
Proof.
  unfold PyDict.keys. induction d as [|[k1 v1] d IH]; simpl.
  - intuition.
  - destruct (String.eqb k k1) eqn:E.
    + apply String.eqb_eq in E. subst k1. split; [discriminate | intuition].
    + apply String.eqb_neq in E. rewrite IH. intuition.
Qed.

Lemma NoDup_keys_set {V} (k : string) (v : V) (d : PyDict.t V) :
  List.NoDup (PyDict.keys d) -> List.NoDup (PyDict.keys (PyDict.set k v d)).
Proof.
  induction d as [|[k1 v1] d IH]; simpl; intros Hnd.
  - constructor; [intros [] | constructor].
  - inversion Hnd as [|? ? Hnotin Hnd']; subst.
    destruct (String.eqb k k1) eqn:E; simpl.
    + apply String.eqb_eq in E. subst k1. now constructor.
    + apply String.eqb_neq in E. constructor; [|now apply IH].
      fold (PyDict.keys (PyDict.set k v d)). rewrite keys_set.
      intros [-> | Hin]; [now apply E | now apply Hnotin].
Qed.

Lemma keys_update {V} (k : string) (d other : PyDict.t V) :
  In k (PyDict.keys (PyDict.update d other))
  <-> In k (PyDict.keys d) \/ In k (PyDict.keys other).
Proof.
  unfold PyDict.update. revert d.
  induction other as [|[k1 v1] o IH]; intros d; simpl.
  - intuition.
  - rewrite IH, keys_set. intuition.
Qed.

Lemma NoDup_keys_update {V} (d other : PyDict.t V) :
  List.NoDup (PyDict.keys d) -> List.NoDup (PyDict.keys (PyDict.update d other)).
Proof.
  unfold PyDict.update. revert d.
  induction other as [|[k1 v1] o IH]; intros d Hnd; simpl; [assumption|].
  now apply IH, NoDup_keys_set.
Qed.

(** [update]: the entry of [other] wins. *)
Lemma get_update {V} (k : string) (d other : PyDict.t V) :
  List.NoDup (PyDict.keys other) ->
  PyDict.get k (PyDict.update d other)
  = match PyDict.get k other with
    | Some v => Some v
    | None => PyDict.get k d
    end.
Proof.
  unfold PyDict.update. revert d.
  induction other as [|[k1 v1] o IH]; intros d Hnd; simpl; [reflexivity|].
  inversion Hnd as [|? ? Hnotin Hnd']; subst.
  rewrite IH by assumption. rewrite get_set.
  destruct (String.eqb k k1) eqn:E; [|reflexivity].
  apply String.eqb_eq in E. subst k1.
  apply get_None_keys in Hnotin. now rewrite Hnotin.
Qed.

Lemma get_fold_update_absent {V} (k : string) (ds : list (PyDict.t V))
      (c : PyDict.t V) :
  Forall (fun d => List.NoDup (PyDict.keys d)) ds ->
  (forall d, In d ds -> PyDict.get k d = None) ->
  PyDict.get k (fold_left PyDict.update ds c) = PyDict.get k c.
Proof.
  revert c. induction ds as [|d ds IH]; intros c Hnd Habs; simpl; [reflexivity|].
  inversion Hnd; subst.
  rewrite IH; [|assumption | intros d' Hd'; apply Habs; now right].
  rewrite get_update by assumption. now rewrite (Habs d) by now left.
Qed.

(** Last write wins over a sequence of updates. *)
Lemma get_fold_update_last {V} (k : string) (v : V)
      (ds1 ds2 : list (PyDict.t V)) (d c : PyDict.t V) :
  Forall (fun d => List.NoDup (PyDict.keys d)) (ds1 ++ d :: ds2) ->
  PyDict.get k d = Some v ->
  (forall d', In d' ds2 -> PyDict.get k d' = None) ->
  PyDict.get k (fold_left PyDict.update (ds1 ++ d :: ds2) c) = Some v.
Proof.
  intros Hnd Hd Habs.
  apply Forall_app in Hnd. destruct Hnd as [_ Hnd]. inversion Hnd; subst.
  rewrite fold_left_app. simpl.
  rewrite get_fold_update_absent by assumption.
  rewrite get_update by assumption. now rewrite Hd.
Qed.

(** ** The associator, read backwards *)

Lemma filter_head_inv {A} (p : A -> bool) (l : list A) (x : A) (r : list A) :
  List.filter p l = x :: r ->
  exists l1 l2, l = l1 ++ x :: l2 /\ (forall y, In y l1 -> p y = false) /\ p x = true.
Proof.
  induction l as [|a l IH]; simpl; [discriminate|].
  destruct (p a) eqn:E.
  - intros [= -> _]. exists [], l. split; [reflexivity|]. split; [intros y []|assumption].
  - intros H. destruct (IH H) as (l1 & l2 & -> & Hl1 & Hx).
    exists (a :: l1), l2. split; [reflexivity|]. split; [|assumption].
    intros y [<- | Hy]; auto.
Qed.

Lemma strip_newlines_clean (s : string) :
  PyStr.contains PyStr.LF (strip_newlines s) = false.
Proof.
  unfold strip_newlines. induction s as [|c s IH]; simpl; [reflexivity|].
  destruct (Ascii.eqb c PyStr.LF) eqn:E; str_simpl; [assumption|].
  now rewrite E.
Qed.

Lemma find_title_for_table_inv (S : list Title) (t : Q) (s : string) :
  find_title_for_table S t = Some s ->
  exists l1 x l2,
    S = l1 ++ x :: l2
    /\ closest_above S t x
    /\ (forall y, In y l1 -> ~ (top y == top x)%Q)
    /\ s = strip_newlines (text x).
Proof.
  unfold find_title_for_table.
  destruct (py_max _) as [m|] eqn:Emax; [|discriminate].
  destruct (float_truthy m); [|discriminate].
  destruct (List.filter (fun title => Qeq_bool (top title) m) S) as [|x r] eqn:Ef;
    [discriminate|].
  simpl. intros [= <-].
  apply filter_head_inv in Ef. destruct Ef as (l1 & l2 & -> & Hl1 & Hx).
  apply Qeq_bool_iff in Hx.
  apply py_max_Some in Emax. destruct Emax as (Hm & Hall).
  apply List.in_map_iff in Hm. destruct Hm as (z & Hz & Hzin).
  apply above_filter in Hzin. destruct Hzin as (_ & Hzt).
  exists l1, x, l2. split; [reflexivity|]. split; [|split; [|reflexivity]].
  - split; [apply List.in_or_app; right; now left|].
    split; [rewrite Hx, <- Hz; exact Hzt|].
    intros y Hy Hyt. rewrite Hx. apply Hall, List.in_map, above_filter. now split.
  - intros y Hy Heq. specialize (Hl1 y Hy). simpl in Hl1.
    rewrite <- not_true_iff_false, Qeq_bool_iff in Hl1. apply Hl1.
    now rewrite Heq.
Qed.

Lemma filename_of_clean (title : string) :
  PyStr.contains PyStr.LF title = false ->
  PyStr.contains PyStr.LF (filename_of title) = false.
Proof.
  rewrite filename_of_slug, slug_map.
  induction title as [|c r IH]; str_simpl; [reflexivity|].
  intros H. apply orb_false_iff in H. destruct H as [Hc Hr].
  rewrite (IH Hr), orb_false_r.
  revert Hc. clear. destruct c as [[] [] [] [] [] [] [] []]; vm_compute; congruence.
Qed.

(** ** Page processing *)

Lemma logged_nil (w : World) : logged w [] = w.
Proof. destruct w. unfold logged. simpl. now rewrite app_nil_r. Qed.

Lemma logged_logged (w : World) (r1 r2 : list LogRecord) :
  logged (logged w r1) r2 = logged w (r1 ++ r2).
Proof. unfold logged. simpl. now rewrite app_assoc. Qed.

Lemma logging_logged (r : LogRecord) (w : World) :
  logging r w = (Returns tt, logged w [r]).
Proof. reflexivity. Qed.

Section Pages.

Variables (self : PDFReader) (page : Page) (page_num : nat) (titles : list Title).

(** What the [try] body does: it raises, or returns the mapping as it
    was, or with one more title. Only the log changes. *)
Lemma table_body_cases (index : nat) (table : Table)
      (d : PyDict.t DataFrame) (w : World) :
  exists r records,
    table_body self page titles index table d w = (r, logged w records)
    /\ ((exists e, r = Raises e)
        \/ r = Returns d
        \/ exists title df b,
             find_title_for_table titles b = Some title
             /\ PyStr.truthy title = true
             /\ r = Returns (PyDict.set title df d)).
Proof.
  unfold table_body, bind, call, ret.
  destruct (page_find_tables page (table_settings self)) as [found|e].
  2:{ exists (Raises e), []. rewrite logged_nil. eauto. }
  destruct (list_getitem found index) as [b|e].
  2:{ exists (Raises e), []. rewrite logged_nil. eauto. }
  destruct (find_title_for_table titles (bbox_1 b)) as [title|] eqn:Etitle.
  2:{ exists (Returns d), []. rewrite logged_nil. eauto. }
  destruct (PyStr.truthy title) eqn:Etruthy.
  2:{ exists (Returns d), []. rewrite logged_nil. eauto. }
  rewrite logging_logged.
  destruct (list_getitem table 0) as [header|e].
  2:{ exists (Raises e), [Info_extracted_title title]. eauto. }
  destruct (pd.DataFrame_of (tl table) header) as [df|e].
  2:{ exists (Raises e), [Info_extracted_title title]. eauto. }
  exists (Returns (PyDict.set title df d)), [Info_extracted_title title].
  split; [reflexivity|]. right. right. eauto 10.
Qed.

(** One iteration never raises. *)
Lemma table_step_cases (index : nat) (table : Table)
      (d : PyDict.t DataFrame) (w : World) :
  exists d' records,
    table_step self page page_num titles index table d w
    = (Returns d', logged w records)
    /\ (d' = d
        \/ exists title df b,
             find_title_for_table titles b = Some title
             /\ PyStr.truthy title = true
             /\ d' = PyDict.set title df d).
Proof.
  unfold table_step, try_except.
  destruct (table_body_cases index table d w) as (r & records & -> & Hr).
  destruct Hr as [(e & ->) | [-> | (title & df & b & Ht & Htr & ->)]].
  - exists d, (records ++ [Error_extracting_tables page_num e]).
    unfold bind. rewrite logging_logged, logged_logged. auto.
  - eauto.
  - exists (PyDict.set title df d), records. split; [reflexivity|]. eauto 10.
Qed.

(** The table loop always returns, and keeps every property of the
    mapping that adding a found title keeps. *)
Lemma tables_loop_invariant (P : PyDict.t DataFrame -> Prop) :
  (forall d title df b,
      P d -> find_title_for_table titles b = Some title ->
      PyStr.truthy title = true -> P (PyDict.set title df d)) ->
  forall (tables : list Table) (index : nat) (d : PyDict.t DataFrame) (w : World),
    P d ->
    exists d' records,
      tables_loop self page page_num titles index tables d w
      = (Returns d', logged w records)
      /\ P d'.
Proof.
  intros Hset. induction tables as [|table rest IH]; intros index d w Hd; simpl.
  - exists d, []. rewrite logged_nil. auto.
  - destruct (table_step_cases index table d w) as (d1 & r1 & Hstep & Hd1).
    rewrite (bind_Returns _ _ _ _ _ Hstep).
    assert (P d1) as HP1.
    { destruct Hd1 as [-> | (title & df & b & Ht & Htr & ->)]; eauto. }
    destruct (IH (S index) d1 (logged w r1) HP1) as (d' & r2 & Hloop & Hd').
    exists d', (r1 ++ r2). rewrite Hloop, logged_logged. auto.
Qed.

End Pages.

Lemma page_dict_ok_set (titles : list Title) (d : PyDict.t DataFrame)
      (title : string) (df : DataFrame) (b : Q) :
  page_dict_ok titles d ->
  find_title_for_table titles b = Some title ->
  PyStr.truthy title = true ->
  page_dict_ok titles (PyDict.set title df d).
Proof.
  intros [Hnd Hkeys] Ht _. split; [now apply NoDup_keys_set|].
  intros k Hk. apply keys_set in Hk. destruct Hk as [-> | Hk]; eauto.
Qed.

(** The page processor returns as soon as titles and tables are located. *)
Lemma extract_tables_from_page_returns (self : PDFReader) (page : Page)
      (page_num : nat) (w : World) (titles : list Title) (tables : list Table) :
  page_search page (title_pattern self) = Returns titles ->
  page_extract_tables page (table_settings self) = Returns tables ->
  exists d records,
    extract_tables_from_page self page page_num w = (Returns d, logged w records)
    /\ page_dict_ok titles d.
Proof.
  intros Hs Ht. unfold extract_tables_from_page, extract_titles_from_page, bind, call.
  rewrite Hs, Ht.
  assert (H0 : page_dict_ok titles (@PyDict.empty DataFrame)).
  { split; [constructor | intros k []]. }
  destruct tables as [|table rest].
  - exists PyDict.empty, []. rewrite logged_nil. auto.
  - apply tables_loop_invariant; [|assumption].
    intros d title df b. apply page_dict_ok_set.
Qed.

Lemma extract_tables_from_page_inv (self : PDFReader) (page : Page)
      (page_num : nat) (w w' : World) (d : PyDict.t DataFrame) :
  extract_tables_from_page self page page_num w = (Returns d, w') ->
  exists titles tables records,
    page_search page (title_pattern self) = Returns titles
    /\ page_extract_tables page (table_settings self) = Returns tables
    /\ w' = logged w records
    /\ page_dict_ok titles d.
Proof.
  intros H.
  destruct (page_search page (title_pattern self)) as [titles|e] eqn:Hs.
  2:{ unfold extract_tables_from_page, extract_titles_from_page, bind, call in H.
      rewrite Hs in H. discriminate. }
  destruct (page_extract_tables page (table_settings self)) as [tables|e] eqn:Ht.
  2:{ unfold extract_tables_from_page, extract_titles_from_page, bind, call in H.
      rewrite Hs, Ht in H. discriminate. }
  destruct (extract_tables_from_page_returns self page page_num w titles tables Hs Ht)
    as (d1 & records & Hret & Hok).
  rewrite Hret in H. inversion H; subst. eauto 10.
Qed.

(** C5: an exception raised while a table is handled is caught in that
    iteration: the mapping is left as it was, the error is logged and the
    loop goes on with the next table. In particular a table whose data
    frame cannot be built (no header row, or rows wider or narrower than
    the header) is skipped this way. The table loop, and with it the
    page processor once titles and tables are located, always returns. *)
Theorem table_failure_is_caught (self : PDFReader) (page : Page) (page_num : nat)
        (titles : list Title) (index : nat) (table : Table) (rest : list Table)
        (d : PyDict.t DataFrame) (w : World) :
  (forall e w1,
      table_body self page titles index table d w = (Raises e, w1) ->
      table_step self page page_num titles index table d w
      = (Returns d, logged w1 [Error_extracting_tables page_num e])
      /\ tables_loop self page page_num titles index (table :: rest) d w
         = tables_loop self page page_num titles (S index) rest d
             (logged w1 [Error_extracting_tables page_num e]))
  /\ (forall found b title e,
         page_find_tables page (table_settings self) = Returns found ->
         nth_error found index = Some b ->
         find_title_for_table titles (bbox_1 b) = Some title ->
         PyStr.truthy title = true ->
         (table = [] /\ e = IndexError)
         \/ (exists header data,
                table = header :: data /\ pd.DataFrame_of data header = Raises e) ->
         table_body self page titles index table d w
         = (Raises e, logged w [Info_extracted_title title]))
  /\ (exists d' w',
         tables_loop self page page_num titles index (table :: rest) d w
         = (Returns d', w'))
  /\ (forall found_titles found_tables,
         page_search page (title_pattern self) = Returns found_titles ->
         page_extract_tables page (table_settings self) = Returns found_tables ->
         exists d' w',
           extract_tables_from_page self page page_num w = (Returns d', w')).
Proof.
  split; [|split; [|split]].
  - intros e w1 Hbody.
    assert (Hstep : table_step self page page_num titles index table d w
                    = (Returns d, logged w1 [Error_extracting_tables page_num e])).
    { unfold table_step, try_except. rewrite Hbody.
      unfold bind. now rewrite logging_logged. }
    split; [exact Hstep|].
    simpl. now rewrite (bind_Returns _ _ _ _ _ Hstep).
  - intros found b title e Hfound Hb Htitle Htruthy Hbad.
    unfold table_body, bind, call, list_getitem at 1.
    rewrite Hfound, Hb, Htitle, Htruthy, logging_logged.
    destruct Hbad as [[-> ->] | (header & data & -> & Hdf)]; simpl.
    + reflexivity.
    + now rewrite Hdf.
  - destruct (tables_loop_invariant self page page_num titles (fun _ => True))
      with (tables := table :: rest) (index := index) (d := d) (w := w)
      as (d' & records & Hloop & _); eauto.
  - intros found_titles found_tables Hs Ht.
    destruct (extract_tables_from_page_returns self page page_num w _ _ Hs Ht)
      as (d' & records & Hret & _). eauto.
Qed.

(** On the sample page the ragged first table is skipped with an error
    record and the second table is still extracted. *)
Lemma table_failure_is_caught_witness :
  extract_tables_from_page Sample.reader0 Sample.page1 1 Sample.world0
  = (Returns [("Table 1", {| columns := [Some "A"; Some "B"];
                             rows := [[Some "1"; Some "2"]] |})],
     logged Sample.world0
       [Info_extracted_title "Table 1";
        Error_extracting_tables 1 ValueError;
        Info_extracted_title "Table 1"]).
Proof.
  pose (ragged := [[Some "A"; Some "B"]; [Some "1"; Some "2"; Some "3"]] : Table).
  pose (good := [[Some "A"; Some "B"]; [Some "1"; Some "2"]] : Table).
  destruct (table_failure_is_caught Sample.reader0 Sample.page1 1
              [mkTitle "Table 1" 50] 0 ragged [good] PyDict.empty Sample.world0)
    as (Hcaught & Hbuild & _ & _).
  assert (Hbody : table_body Sample.reader0 Sample.page1 [mkTitle "Table 1" 50] 0
                    ragged PyDict.empty Sample.world0
                  = (Raises ValueError,
                     logged Sample.world0 [Info_extracted_title "Table 1"])).
  { apply (Hbuild [(0, 60, 100, 80); (0, 70, 100, 90)]%Q (0, 60, 100, 80)%Q "Table 1").
    - reflexivity.
    - reflexivity.
    - reflexivity.
    - reflexivity.
    - right. exists [Some "A"; Some "B"], [[Some "1"; Some "2"; Some "3"]].
      split; reflexivity. }
  destruct (Hcaught ValueError _ Hbody) as (_ & Hloop).
  unfold extract_tables_from_page, extract_titles_from_page, bind, call. simpl.
  fold ragged. fold good.
  change (tables_loop Sample.reader0 Sample.page1 1 [mkTitle "Table 1" 50] 0
            [ragged; good] PyDict.empty Sample.world0 = 
          (Returns [("Table 1", {| columns := [Some "A"; Some "B"];
                             rows := [[Some "1"; Some "2"]] |})],
     logged Sample.world0
       [Info_extracted_title "Table 1";
        Error_extracting_tables 1 ValueError;
        Info_extracted_title "Table 1"])).
  rewrite Hloop. reflexivity.
Defined.

(** ** Pages without titles *)

Lemma update_empty {V} (c : PyDict.t V) : PyDict.update c PyDict.empty = c.
Proof. reflexivity. Qed.

Lemma page_dict_no_titles (d : PyDict.t DataFrame) :
  page_dict_ok [] d -> d = PyDict.empty.
Proof.
  intros [_ Hkeys]. destruct d as [|[k v] d]; [reflexivity|].
  destruct (Hkeys k) as (b & Hb); [now left | discriminate].
Qed.

(** C7: when no title is detected on a page, the page processor can only
    return the empty mapping (and it does return as soon as the tables
    are located), and the page loop carries the combined mapping over
    that page unchanged: none of the page's tables enters it. *)
Theorem untitled_page_is_dropped (self : PDFReader) (page : Page)
        (page_num : nat) (w : World) :
  page_search page (title_pattern self) = Returns [] ->
  (forall tables,
      page_extract_tables page (table_settings self) = Returns tables ->
      exists w1,
        extract_tables_from_page self page page_num w = (Returns PyDict.empty, w1))
  /\ (forall d w1,
         extract_tables_from_page self page page_num w = (Returns d, w1) ->
         d = PyDict.empty
         /\ forall rest combined,
              pages_loop self page_num (page :: rest) combined w
              = pages_loop self (S page_num) rest combined w1).
Proof.
  intros Hs. split.
  - intros tables Ht.
    destruct (extract_tables_from_page_returns self page page_num w _ _ Hs Ht)
      as (d & records & Hret & Hok).
    apply page_dict_no_titles in Hok. subst d. eauto.
  - intros d w1 Hret.
    assert (Hd : d = PyDict.empty).
    { destruct (extract_tables_from_page_inv _ _ _ _ _ _ Hret)
        as (titles & tables & records & Hs' & _ & _ & Hok).
      rewrite Hs in Hs'. inversion Hs'; subst titles.
      now apply page_dict_no_titles. }
    split; [exact Hd|]. subst d.
    intros rest combined. simpl.
    now rewrite (bind_Returns _ _ _ _ _ Hret), update_empty.
Qed.

Lemma untitled_page_is_dropped_witness :
  extract_tables_from_page Sample.reader0 Sample.page2 2 Sample.world0
  = (Returns PyDict.empty, Sample.world0).
Proof.
  destruct (untitled_page_is_dropped Sample.reader0 Sample.page2 2 Sample.world0)
    as (Hret & _); [reflexivity|].
  destruct (Hret [ [[Some "C"]; [Some "3"]] ]) as (w1 & Hw1); [reflexivity|].
  rewrite Hw1. vm_compute in Hw1. inversion Hw1. reflexivity.
Defined.

(** ** The page loop *)

Lemma pages_loop_of_trace (self : PDFReader) (page_num : nat) (pages : list Page)
      (w w' : World) (ds : list (PyDict.t DataFrame)) :
  pages_trace self page_num pages w ds w' ->
  forall combined,
    pages_loop self page_num pages combined w
    = (Returns (fold_left PyDict.update ds combined), w').
Proof.
  induction 1 as [n w | n page rest w w1 w2 d ds Hpage Htrace IH];
    intros combined; simpl.
  - reflexivity.
  - rewrite (bind_Returns _ _ _ _ _ Hpage). apply IH.
Qed.

Lemma pages_loop_inv (self : PDFReader) (pages : list Page) :
  forall (page_num : nat) (combined result : PyDict.t DataFrame) (w w' : World),
    pages_loop self page_num pages combined w = (Returns result, w') ->
    exists ds,
      pages_trace self page_num pages w ds w'
      /\ result = fold_left PyDict.update ds combined.
Proof.
  induction pages as [|page rest IH]; intros n combined result w w' H; simpl in H.
  - inversion H; subst. exists []. split; [constructor | reflexivity].
  - apply bind_inv in H. destruct H as (d & w1 & Hpage & Hrest).
    destruct (IH _ _ _ _ _ Hrest) as (ds & Htrace & ->).
    exists (d :: ds). split; [econstructor; eassumption | reflexivity].
Qed.

Lemma pages_trace_NoDup (self : PDFReader) (page_num : nat) (pages : list Page)
      (w w' : World) (ds : list (PyDict.t DataFrame)) :
  pages_trace self page_num pages w ds w' ->
  Forall (fun d => List.NoDup (PyDict.keys d)) ds.
Proof.
  induction 1 as [n w | n page rest w w1 w2 d ds Hpage Htrace IH]; constructor.
  - destruct (extract_tables_from_page_inv _ _ _ _ _ _ Hpage)
      as (titles & tables & records & _ & _ & _ & Hnd & _).
    exact Hnd.
  - exact IH.
Qed.

Lemma pages_trace_length (self : PDFReader) (page_num : nat) (pages : list Page)
      (w w' : World) (ds : list (PyDict.t DataFrame)) :
  pages_trace self page_num pages w ds w' -> length ds = length pages.
Proof. induction 1; simpl; congruence. Qed.

(** C4: when every page is processed (in document order, numbered from
    one, the mappings [ds] being what the pages returned),
    [extract_content_from_pdf] returns these mappings merged from left to
    right, and for every key the merged mapping holds the value of the
    last page that produced the key. *)
Theorem combined_last_write_wins
        (pdfplumber_open : string -> result (list Page)) (self : PDFReader)
        (buffer : string) (pages : list Page) (w w' : World)
        (ds : list (PyDict.t DataFrame)) :
  pdf_file self = Some (Some buffer) ->
  pdfplumber_open buffer = Returns pages ->
  pages_trace self 1 pages w ds w' ->
  extract_content_from_pdf pdfplumber_open self w
  = (Returns (fold_left PyDict.update ds PyDict.empty), w')
  /\ forall ds1 d ds2 k v,
       ds = ds1 ++ d :: ds2 ->
       PyDict.get k d = Some v ->
       (forall d', In d' ds2 -> PyDict.get k d' = None) ->
       PyDict.get k (fold_left PyDict.update ds PyDict.empty) = Some v.
Proof.
  intros Hfile Hopen Htrace. split.
  - unfold extract_content_from_pdf. rewrite Hfile.
    unfold try_except, bind, call. rewrite Hopen.
    now rewrite (pages_loop_of_trace _ _ _ _ _ _ Htrace).
  - intros ds1 d ds2 k v -> Hd Hlater.
    apply get_fold_update_last; [|assumption|assumption].
    exact (pages_trace_NoDup _ _ _ _ _ _ Htrace).
Qed.

(** The scenario of section 8: [Summary] on page one with table A and on
    page two with table B leaves table B under [Summary]. *)
Lemma combined_last_write_wins_witness :
  exists combined w',
    extract_content_from_pdf Sample.summary_open Sample.loaded_reader Sample.world0
    = (Returns combined, w')
    /\ PyDict.get "Summary" combined = Some Sample.df_B.
Proof.
  assert (Htrace : pages_trace Sample.loaded_reader 1
                     [Sample.summary_page Sample.table_A;
                      Sample.summary_page Sample.table_B]
                     Sample.world0
                     [[("Summary", Sample.df_A)]; [("Summary", Sample.df_B)]]
                     (logged Sample.world0
                        [Info_extracted_title "Summary";
                         Info_extracted_title "Summary"])).
  { eapply trace_page; [reflexivity|].
    eapply trace_page; [reflexivity|].
    apply trace_done. }
  destruct (combined_last_write_wins Sample.summary_open Sample.loaded_reader
              "%PDF" _ _ _ _ eq_refl eq_refl Htrace) as (Hret & Hlast).
  eexists. eexists. split; [exact Hret|].
  apply (Hlast [[("Summary", Sample.df_A)]] [("Summary", Sample.df_B)] []).
  - reflexivity.
  - reflexivity.
  - intros d' [].
Defined.

(** ** Keys of the result mappings *)

Lemma keys_fold_update {V} (k : string) (ds : list (PyDict.t V)) (c : PyDict.t V) :
  In k (PyDict.keys (fold_left PyDict.update ds c)) ->
  In k (PyDict.keys c) \/ exists d, In d ds /\ In k (PyDict.keys d).
Proof.
  revert c. induction ds as [|d ds IH]; intros c; simpl; [auto|].
  intros H. destruct (IH _ H) as [Hc | (d' & Hd' & Hk)].
  - apply keys_update in Hc. destruct Hc as [Hc | Hd]; eauto.
  - eauto.
Qed.

Lemma pages_trace_dicts (self : PDFReader) (page_num : nat) (pages : list Page)
      (w w' : World) (ds : list (PyDict.t DataFrame)) :
  pages_trace self page_num pages w ds w' ->
  forall d, In d ds -> exists titles, page_dict_ok titles d.
Proof.
  induction 1 as [n w | n page rest w w1 w2 d0 ds Hpage Htrace IH];
    intros d; simpl; [intros []|].
  intros [<- | Hd]; [|auto].
  destruct (extract_tables_from_page_inv _ _ _ _ _ _ Hpage)
    as (titles & tables & records & _ & _ & _ & Hok).
  eauto.
Qed.

Lemma page_dict_key_clean (titles : list Title) (d : PyDict.t DataFrame) (k : string) :
  page_dict_ok titles d -> In k (PyDict.keys d) ->
  PyStr.contains PyStr.LF k = false
  /\ PyStr.contains PyStr.LF (filename_of k) = false.
Proof.
  intros [_ Hkeys] Hk. destruct (Hkeys k Hk) as (b & Hb).
  apply find_title_for_table_inv in Hb.
  destruct Hb as (l1 & x & l2 & _ & _ & _ & ->).
  split; [|apply filename_of_clean]; apply strip_newlines_clean.
Qed.

Lemma extract_content_from_pdf_inv
      (pdfplumber_open : string -> result (list Page)) (self : PDFReader)
      (w w' : World) (combined : PyDict.t DataFrame) :
  extract_content_from_pdf pdfplumber_open self w = (Returns combined, w') ->
  exists buffer pages ds,
    pdf_file self = Some (Some buffer)
    /\ pdfplumber_open buffer = Returns pages
    /\ pages_trace self 1 pages w ds w'
    /\ combined = fold_left PyDict.update ds PyDict.empty.
Proof.
  unfold extract_content_from_pdf.
  destruct (pdf_file self) as [[buffer|]|]; [|discriminate|discriminate].
  unfold try_except.
  destruct (bind _ _ w) as [[d|e] w1] eqn:Hbody; [|discriminate].
  intros H. inversion H; subst.
  apply bind_inv in Hbody. destruct Hbody as (pages & w2 & Hopen & Hloop).
  unfold call in Hopen. inversion Hopen; subst.
  apply pages_loop_inv in Hloop. destruct Hloop as (ds & Htrace & ->).
  exists buffer, pages, ds. rewrite H1. auto.
Qed.

(** C10: a title the associator returns is the text of the matched title
    (the first one at the closest position above the table) with its
    newline characters removed, so it holds no newline; hence no key of a
    mapping returned by the page processor or by the document processor
    holds a newline, and neither does the file name derived from it. *)
Theorem returned_title_has_no_newline :
  (forall S t s,
      find_title_for_table S t = Some s ->
      exists l1 x l2,
        S = l1 ++ x :: l2
        /\ closest_above S t x
        /\ (forall y, In y l1 -> ~ (top y == top x)%Q)
        /\ s = strip_newlines (text x)
        /\ PyStr.contains PyStr.LF s = false)
  /\ (forall self page page_num w d w',
         extract_tables_from_page self page page_num w = (Returns d, w') ->
         forall k, In k (PyDict.keys d) ->
                   PyStr.contains PyStr.LF k = false
                   /\ PyStr.contains PyStr.LF (filename_of k) = false)
  /\ (forall pdfplumber_open self w d w',
         extract_content_from_pdf pdfplumber_open self w = (Returns d, w') ->
         forall k, In k (PyDict.keys d) ->
                   PyStr.contains PyStr.LF k = false
                   /\ PyStr.contains PyStr.LF (filename_of k) = false).
Proof.
  split; [|split].
  - intros S t s Hfind.
    destruct (find_title_for_table_inv S t s Hfind) as (l1 & x & l2 & HS & Hc & Hf & ->).
    exists l1, x, l2. repeat split; try assumption; try apply Hc.
    apply strip_newlines_clean.
  - intros self page page_num w d w' Hret k Hk.
    destruct (extract_tables_from_page_inv _ _ _ _ _ _ Hret)
      as (titles & tables & records & _ & _ & _ & Hok).
    exact (page_dict_key_clean titles d k Hok Hk).
  - intros pdfplumber_open self w d w' Hret k Hk.
    apply extract_content_from_pdf_inv in Hret.
    destruct Hret as (buffer & pages & ds & _ & _ & Htrace & ->).
    apply keys_fold_update in Hk. destruct Hk as [[] | (d & Hd & Hk)].
    destruct (pages_trace_dicts _ _ _ _ _ _ Htrace d Hd) as (titles & Hok).
    exact (page_dict_key_clean titles d k Hok Hk).
Qed.

Lemma returned_title_has_no_newline_witness :
  find_title_for_table
    [mkTitle (String "A" (String PyStr.LF (String "B" EmptyString))) 50] 60
  = Some "AB"
  /\ PyStr.contains PyStr.LF "AB" = false.
Proof.
  assert (H : find_title_for_table
                [mkTitle (String "A" (String PyStr.LF (String "B" EmptyString))) 50] 60
              = Some "AB") by reflexivity.
  split; [exact H|].
  destruct (proj1 returned_title_has_no_newline _ _ _ H)
    as (l1 & x & l2 & _ & _ & _ & _ & Hclean).
  exact Hclean.
Defined.

(** ** Paths and the file system *)

Lemma split_not_nil (sep : ascii) (s : string) : PyStr.split sep s <> [].
Proof.
  destruct s as [|c s]; simpl; [discriminate|].
  destruct (Ascii.eqb c sep); [discriminate|].
  destruct (PyStr.split sep s); discriminate.
Qed.








Lemma resolve_Returns (fs : FS) (name : string) (comps : list string) :
  forall cur node,
    os.resolve fs name cur comps = Returns node ->
    node = fold_left os.path_step comps cur.
Proof.
  induction comps as [|c rest IH]; intros cur node; simpl.
  - now intros [= <-].
  - case_bool_decide; [apply IH|].
    destruct (os.is_file fs cur); discriminate.
Qed.

Lemma resolve_app (fs : FS) (name : string) (l1 l2 : list string) :
  forall cur,
    os.resolve fs name cur (l1 ++ l2)
    = match os.resolve fs name cur l1 with
      | Returns node => os.resolve fs name node l2
      | Raises e => Raises e
      end.
Proof.
  induction l1 as [|c l1 IH]; intros cur; simpl; [reflexivity|].
  case_bool_decide; [apply IH|].
  now destruct (os.is_file fs cur).
Qed.

Lemma resolve_same_dirs (fs fs' : FS) (name : string) (comps : list string) :
  fs_dirs fs' = fs_dirs fs ->
  forall cur node,
    os.resolve fs name cur comps = Returns node ->
    os.resolve fs' name cur comps = Returns node.
Proof.
  intros Hdirs. induction comps as [|c rest IH]; intros cur node; simpl; [trivial|].
  rewrite Hdirs. case_bool_decide; [apply IH|].
  destruct (os.is_file fs cur); discriminate.
Qed.

Lemma lookup_same (fs fs' : FS) (p : string) (node : list string) :
  fs_cwd fs' = fs_cwd fs -> fs_dirs fs' = fs_dirs fs ->
  os.lookup fs p = Returns node -> os.lookup fs' p = Returns node.
Proof.
  intros Hcwd Hdirs. unfold os.lookup, os.path_start. rewrite Hcwd.
  destruct (negb (PyStr.truthy p)); [discriminate|].
  now apply resolve_same_dirs.
Qed.



Lemma split_removelast_last (p : string) :
  PyStr.split PyStr.SLASH p
  = removelast (PyStr.split PyStr.SLASH p)
    ++ [List.last (PyStr.split PyStr.SLASH p) EmptyString].
Proof. apply app_removelast_last, split_not_nil. Qed.

(** The node a successful [open(path, "w")] writes at, with its parent
    directory. *)
Lemma open_for_write_node (p : string) (fs : FS) (node : list string) :
  os.open_for_write p fs = Returns node ->
  os.lookup fs p = Returns node
  /\ (node ∉ fs_dirs fs)
  /\ node = fold_left os.path_step (removelast (PyStr.split PyStr.SLASH p))
                      (os.path_start fs p)
            ++ [List.last (PyStr.split PyStr.SLASH p) EmptyString]
  /\ os.resolve fs p (os.path_start fs p) (removelast (PyStr.split PyStr.SLASH p))
     = Returns (fold_left os.path_step (removelast (PyStr.split PyStr.SLASH p))
                          (os.path_start fs p))
  /\ fold_left os.path_step (removelast (PyStr.split PyStr.SLASH p))
               (os.path_start fs p) ∈ fs_dirs fs.
Proof.
  unfold os.open_for_write.
  destruct (os.lookup fs p) as [n|e] eqn:Hl; [|discriminate].
  destruct (os.is_dot (List.last (PyStr.split PyStr.SLASH p) EmptyString)) eqn:Hdot;
    [discriminate|].
  destruct (String.eqb (List.last (PyStr.split PyStr.SLASH p) EmptyString) "..")
    eqn:Hup; [discriminate|].
  simpl. case_bool_decide as Hdir; [discriminate|].
  intros [= <-]. split; [reflexivity|]. split; [exact Hdir|].
  unfold os.lookup in Hl.
  destruct (negb (PyStr.truthy p)); [discriminate|].
  rewrite (split_removelast_last p), resolve_app in Hl.
  destruct (os.resolve fs p (os.path_start fs p)
                       (removelast (PyStr.split PyStr.SLASH p)))
    as [parent|e] eqn:Hparent; [|discriminate].
  pose proof (resolve_Returns _ _ _ _ _ Hparent) as Hp. subst parent.
  simpl in Hl. revert Hl. case_bool_decide as Hin.
  - intros [= <-]. unfold os.path_step. rewrite Hdot, Hup. auto.
  - destruct (os.is_file fs _); discriminate.
Qed.

Lemma write_file_spec (p content : string) (fs fs' : FS) :
  os.write_file p content fs = Returns fs' ->
  fs_cwd fs' = fs_cwd fs
  /\ fs_dirs fs' = fs_dirs fs
  /\ os.read_file p fs' = Returns content.
Proof.
  unfold os.write_file.
  destruct (os.open_for_write p fs) as [node|e] eqn:Hopen; [|discriminate].
  case_bool_decide; [discriminate|].
  intros [= <-]. simpl. split; [reflexivity|]. split; [reflexivity|].
  destruct (open_for_write_node _ _ _ Hopen) as (Hl & _).
  unfold os.read_file.
  rewrite (lookup_same fs (os.set_file node content fs) p node eq_refl eq_refl Hl).
  simpl. now rewrite lookup_insert_eq.
Qed.

(** ** Writing the results *)

(** [to_csv] returns exactly when the write returns, with the same file
    system; when it raises, the file system is as it was or the target
    is left empty. *)
Lemma to_csv_outcome (df : DataFrame) (filepath : string) (w : World) :
  (exists fs2,
      os.write_file filepath (pd.csv_text df) (fs w) = Returns fs2
      /\ pd.to_csv df filepath w = (Returns tt, {| fs := fs2; log := log w |}))
  \/ (exists e fs',
         pd.to_csv df filepath w = (Raises e, {| fs := fs'; log := log w |})
         /\ (exists e', os.write_file filepath (pd.csv_text df) (fs w) = Raises e')
         /\ (fs' = fs w
             \/ exists node,
                  os.open_for_write filepath (fs w) = Returns node
                  /\ fs' = os.set_file node EmptyString (fs w))).
Proof.
  unfold pd.to_csv, os.write_file.
  destruct (os.open_for_write filepath (fs w)) as [node|e] eqn:Hopen.
  - assert (Hparent : pd.parent_is_dir (fs w) filepath = true).
    { destruct (open_for_write_node _ _ _ Hopen) as (_ & _ & _ & Hres & Hin).
      unfold pd.parent_is_dir. rewrite Hres. now apply bool_decide_eq_true_2. }
    rewrite Hparent. simpl. case_bool_decide.
    + right. exists (OSError filepath), (os.set_file node EmptyString (fs w)).
      split; [reflexivity|]. split; [eauto|]. right. eauto.
    + left. eauto.
  - right. destruct (negb (pd.parent_is_dir (fs w) filepath)).
    + exists (OSError filepath), (fs w). destruct w. simpl. eauto.
    + exists e, (fs w). destruct w. simpl. eauto.
Qed.

(** [save_as_csv] after the directories are made. *)
Lemma save_as_csv_after_makedirs (self : PDFReader) (df : DataFrame)
      (title : string) (w : World) (fs1 : FS) :
  os.makedirs (os.path_join (results_path self) "results") (fs w) = Returns fs1 ->
  save_as_csv self df title w
  = match pd.to_csv df (filepath_of self title) {| fs := fs1; log := log w |} with
    | (Returns _, w1) =>
        (Returns tt, logged w1 [Info_table_saved (filepath_of self title)])
    | (Raises e, w1) => (Returns tt, logged w1 [Error_saving_csv e])
    end.
Proof.
  intros Hmk. unfold save_as_csv, bind at 1, fs_update. rewrite Hmk.
  unfold try_except, bind. fold (filepath_of self title).
  destruct (pd.to_csv df (filepath_of self title) {| fs := fs1; log := log w |})
    as [[[]|e] w1]; reflexivity.
Qed.

(** A failure to make the directories is not caught. *)
Lemma save_as_csv_makedirs_raises (self : PDFReader) (df : DataFrame)
      (title : string) (w : World) (e : exn) :
  os.makedirs (os.path_join (results_path self) "results") (fs w) = Raises e ->
  save_as_csv self df title w = (Raises e, w).
Proof.
  intros Hmk. unfold save_as_csv, bind, fs_update at 1. now rewrite Hmk.
Qed.

(** The outcomes of a [save_as_csv] that returns. *)
Lemma save_as_csv_inv (self : PDFReader) (df : DataFrame) (title : string)
      (w w' : World) :
  save_as_csv self df title w = (Returns tt, w') ->
  exists fs1,
    os.makedirs (os.path_join (results_path self) "results") (fs w) = Returns fs1
    /\ ((exists fs2,
            os.write_file (filepath_of self title) (pd.csv_text df) fs1 = Returns fs2
            /\ w' = {| fs := fs2;
                       log := log w ++ [Info_table_saved (filepath_of self title)] |})
        \/ (exists e fs',
               w' = {| fs := fs'; log := log w ++ [Error_saving_csv e] |}
               /\ (fs' = fs1
                   \/ exists node,
                        os.open_for_write (filepath_of self title) fs1 = Returns node
                        /\ fs' = os.set_file node EmptyString fs1))).
Proof.
  intros Hret.
  destruct (os.makedirs (os.path_join (results_path self) "results") (fs w))
    as [fs1|e] eqn:Hmk.
  - exists fs1. split; [reflexivity|].
    rewrite (save_as_csv_after_makedirs self df title w fs1 Hmk) in Hret.
    destruct (to_csv_outcome df (filepath_of self title) {| fs := fs1; log := log w |})
      as [(fs2 & Hw & Hcsv) | (e & fs' & Hcsv & _ & Hfs)];
      rewrite Hcsv in Hret; inversion Hret; subst; simpl in *.
    + left. eauto.
    + right. exists e, fs'. split; [reflexivity | exact Hfs].
  - rewrite (save_as_csv_makedirs_raises self df title w e Hmk) in Hret.
    discriminate.
Qed.




(** ** The written text, read back *)

(** C9: the table with header A, B and the row 1, 2 gives a data frame
    whose text [save_as_csv] writes to the results file; that file, read
    back and parsed as delimited text, is the header A, B followed by
    the row 1, 2. *)
Theorem csv_round_trip (self : PDFReader) (title : string) (w : World)
        (fs1 fs2 : FS) :
  let table : Table := [[Some "A"; Some "B"]; [Some "1"; Some "2"]] in
  let df := {| columns := [Some "A"; Some "B"]; rows := [[Some "1"; Some "2"]] |} in
  let filepath := os.path_join (os.path_join (results_path self) "results")
                               (filename_of title) in
  os.makedirs (os.path_join (results_path self) "results") (fs w) = Returns fs1 ->
  os.write_file filepath (pd.csv_text df) fs1 = Returns fs2 ->
  pd.DataFrame_of (tl table) [Some "A"; Some "B"] = Returns df
  /\ save_as_csv self df title w
     = (Returns tt, {| fs := fs2; log := log w ++ [Info_table_saved filepath] |})
  /\ exists text,
       os.read_file filepath fs2 = Returns text
       /\ csv.reader text = [["A"; "B"]; ["1"; "2"]].
Proof.
  intros table df filepath Hmk Hw.
  split; [reflexivity|]. split.
  - rewrite (save_as_csv_after_makedirs self df title w fs1 Hmk).
    change (filepath_of self title) with filepath.
    destruct (to_csv_outcome df filepath {| fs := fs1; log := log w |})
      as [(fs2' & Hw' & ->) | (e & fs' & _ & (e' & Hw') & _)]; simpl in Hw'.
    + rewrite Hw in Hw'. inversion Hw'; subst. reflexivity.
    + rewrite Hw in Hw'. discriminate.
  - exists (pd.csv_text df). split; [|reflexivity].
    now destruct (write_file_spec _ _ _ _ Hw) as (_ & _ & Hread).
Qed.

Lemma csv_round_trip_witness :
  exists text w',
    save_as_csv Sample.reader0
      {| columns := [Some "A"; Some "B"]; rows := [[Some "1"; Some "2"]] |}
      "Table One" Sample.world0
    = (Returns tt, w')
    /\ os.read_file "/out/results/table_one.csv" (fs w') = Returns text
    /\ csv.reader text = [["A"; "B"]; ["1"; "2"]].
Proof.
  destruct (os.makedirs (os.path_join (results_path Sample.reader0) "results")
                        (fs Sample.world0)) as [fs1|e] eqn:Hmk;
    [|vm_compute in Hmk; discriminate].
  destruct (os.write_file
              (os.path_join (os.path_join (results_path Sample.reader0) "results")
                            (filename_of "Table One"))
              (pd.csv_text {| columns := [Some "A"; Some "B"];
                              rows := [[Some "1"; Some "2"]] |}) fs1)
    as [fs2|e] eqn:Hw.
  - destruct (csv_round_trip Sample.reader0 "Table One" Sample.world0 fs1 fs2 Hmk Hw)
      as (_ & Hsave & text & Hread & Hparse).
    exists text. eexists. split; [exact Hsave|]. split; [exact Hread | exact Hparse].
  - exfalso. vm_compute in Hmk. inversion Hmk; subst fs1.
    vm_compute in Hw. discriminate.
Defined.

(** ** The whole run *)

(** The end-to-end scenario of section 8 on the sample document: page one
    has a title above its tables, page two has a table and no title. The
    run returns, the ragged table is skipped, and one file is written. *)
Example main_sample_run :
  let run := main Sample.yaml_safe_load Sample.requests_get Sample.pdfplumber_open
                  "config.yml" "/out" Sample.world0 in
  fst run = Returns tt
  /\ log (snd run)
     = [Info_pdf_downloaded;
        Info_extracted_title "Table 1";
        Error_extracting_tables 1 ValueError;
        Info_extracted_title "Table 1";
        Info_table_saved "/out/results/table_1.csv"]
  /\ os.read_file "/out/results/table_1.csv" (fs (snd run))
     = Returns (pd.csv_text {| columns := [Some "A"; Some "B"];
                               rows := [[Some "1"; Some "2"]] |})
  /\ size (fs_files (fs (snd run))) = 3%nat.
Proof. vm_compute. repeat split. Qed.

(** * Further properties of the module *)

(** ** More on the associator *)

Lemma float_truthy_false (m : Q) : float_truthy m = false <-> (m == 0)%Q.
Proof.
  unfold float_truthy. rewrite negb_false_iff. apply Qeq_bool_iff.
Qed.

(** [find_title_for_table] returns no match exactly when no title is
    strictly above the table top or the closest title above sits at
    position zero (the test [if title_top:] takes zero for no title). *)
Theorem find_title_for_table_none_iff (S : list Title) (t : Q) :
  find_title_for_table S t = None
  <-> (forall x, In x S -> ~ (top x < t)%Q)
      \/ exists x, closest_above S t x /\ (top x == 0)%Q.
Proof.
  split.
  - intros Hnone.
    destruct (List.filter (fun title => Qltb (top title) t) S) as [|z l] eqn:Ef.
    + left. intros x Hx Hlt.
      assert (Hin : In x (List.filter (fun title => Qltb (top title) t) S))
        by (apply above_filter; now split).
      rewrite Ef in Hin. destruct Hin.
    + right. unfold find_title_for_table in Hnone. rewrite Ef in Hnone.
      destruct (py_max (map top (z :: l))) as [m|] eqn:Emax;
        [|simpl in Emax; discriminate].
      rewrite <- Ef in Emax.
      apply py_max_Some in Emax. destruct Emax as (Hm & Hall).
      apply List.in_map_iff in Hm. destruct Hm as (x & Hx & Hxin).
      apply above_filter in Hxin. destruct Hxin as (HxS & Hxt).
      assert (Hc : closest_above S t x).
      { split; [assumption|]. split; [assumption|].
        intros y Hy Hyt. rewrite Hx. apply Hall, List.in_map, above_filter.
        now split. }
      exists x. split; [exact Hc|].
      destruct (float_truthy m) eqn:Etr.
      * exfalso.
        assert (Hq : In x (List.filter (fun title => Qeq_bool (top title) m) S)).
        { apply List.filter_In. split; [assumption|].
          apply Qeq_bool_iff. now rewrite Hx. }
        destruct (List.filter (fun title => Qeq_bool (top title) m) S);
          [destruct Hq | discriminate].
      * apply float_truthy_false in Etr. now rewrite Hx.
  - intros [Hnone | (x & Hc & Hz)].
    + now apply find_title_none_above.
    + unfold find_title_for_table.
      destruct (title_top_closest S t x Hc) as (m & -> & Hm).
      assert (Etr : float_truthy m = false).
      { apply float_truthy_false. now rewrite Hm. }
      now rewrite Etr.
Qed.

Lemma find_title_for_table_none_iff_witness :
  find_title_for_table [mkTitle "Table 1" 0; mkTitle "Table 2" (-5)] 60 = None
  /\ find_title_for_table [mkTitle "Table 1" 60] 60 = None.
Proof.
  split.
  - apply (proj2 (find_title_for_table_none_iff
                    [mkTitle "Table 1" 0; mkTitle "Table 2" (-5)] 60)).
    right. exists (mkTitle "Table 1" 0). split; [|reflexivity].
    split; [now left|]. split; [simpl; lra|].
    intros y [<- | [<- | []]]; simpl; lra.
  - apply (proj2 (find_title_for_table_none_iff [mkTitle "Table 1" 60] 60)).
    left. intros x [<- | []]. simpl. lra.
Defined.

Lemma filter_idempotent {A} (p : A -> bool) (l : list A) :
  List.filter p (List.filter p l) = List.filter p l.
Proof.
  induction l as [|a l IH]; simpl; [reflexivity|].
  destruct (p a) eqn:E; simpl; [now rewrite E, IH | exact IH].
Qed.

Lemma filter_filter_implied {A} (p q : A -> bool) (l : list A) :
  (forall x, q x = true -> p x = true) ->
  List.filter q (List.filter p l) = List.filter q l.
Proof.
  intros Himp. induction l as [|a l IH]; simpl; [reflexivity|].
  destruct (p a) eqn:Ep; simpl.
  - now rewrite IH.
  - destruct (q a) eqn:Eq; [|exact IH].
    apply Himp in Eq. congruence.
Qed.

(** Titles at or below the table top never influence the result: the
    associator gives the same answer on the titles strictly above. *)
Theorem find_title_for_table_above_only (S : list Title) (t : Q) :
  find_title_for_table (List.filter (fun title => Qltb (top title) t) S) t
  = find_title_for_table S t.
Proof.
  unfold find_title_for_table. rewrite filter_idempotent.
  destruct (py_max _) as [m|] eqn:Emax; [|reflexivity].
  destruct (float_truthy m); [|reflexivity].
  rewrite filter_filter_implied; [reflexivity|].
  intros x Hx. simpl in Hx. apply Qeq_bool_iff in Hx.
  apply py_max_Some in Emax. destruct Emax as (Hm & _).
  apply List.in_map_iff in Hm. destruct Hm as (z & Hz & Hzin).
  apply above_filter in Hzin. destruct Hzin as (_ & Hzt).
  apply Qltb_lt. rewrite Hx, <- Hz. exact Hzt.
Qed.

(** ** More on file names *)

Lemma slug_char_lower (c : ascii) : slug_char (PyStr.lower_char c) = slug_char c.
Proof. destruct c as [[] [] [] [] [] [] [] []]; reflexivity. Qed.

Lemma slug_lower (title : string) : slug (PyStr.lower title) = slug title.
Proof.
  rewrite !slug_map. induction title as [|c r IH]; simpl; [reflexivity|].
  now rewrite slug_char_lower, IH.
Qed.

Lemma slug_replace (title : string) :
  slug (PyStr.replace PyStr.SPACE "_" title) = slug title.
Proof.
  rewrite !slug_map. induction title as [|c r IH]; simpl; [reflexivity|].
  destruct (Ascii.eqb c PyStr.SPACE) eqn:E; str_simpl.
  - apply Ascii.eqb_eq in E. subst c. now rewrite IH.
  - now rewrite IH.
Qed.

Lemma str_length_app (a b : string) :
  String.length (a ++ b) = (String.length a + String.length b)%nat.
Proof.
  induction a as [|c a IH]; [reflexivity|].
  rewrite str_app_cons. simpl. now rewrite IH.
Qed.

Lemma str_app_inv_tail (a b x : string) :
  (a ++ x)%string = (b ++ x)%string -> a = b.
Proof.
  intros H.
  assert (Hlen : String.length a = String.length b).
  { apply (f_equal String.length) in H.
    rewrite !str_length_app in H. lia. }
  revert b H Hlen. induction a as [|c a IH]; intros [|d b] H Hlen;
    simpl in Hlen; try discriminate; [reflexivity|].
  rewrite !str_app_cons in H. inversion H; subst.
  f_equal. apply IH; [assumption | lia].
Qed.

(** ** More on construction *)

Lemma load_config_inv (yaml_safe_load : string -> result yaml)
      (config_path : string) (w w' : World) (c : yaml) :
  load_config yaml_safe_load config_path w = (Returns c, w') ->
  exists doc,
    os.read_file config_path (fs w) = Returns doc
    /\ yaml_safe_load doc = Returns c
    /\ w' = w.
Proof.
  unfold load_config, try_except, bind, fs_query, call.
  destruct (os.read_file config_path (fs w)) as [doc|e].
  - destruct (yaml_safe_load doc) as [c'|e] eqn:Hparse.
    + intros [= -> <-]. exists doc. auto.
    + destruct e; simpl; discriminate.
  - destruct e; simpl; discriminate.
Qed.

Lemma getitem_inv (obj v : yaml) (key : string) :
  getitem obj key = Returns v -> exists m, obj = YMap m /\ m !! key = Some v.
Proof.
  destruct obj; simpl; try discriminate.
  destruct (m !! key) as [v'|] eqn:E; [|discriminate].
  intros [= ->]. eauto.
Qed.

(** [__init__] returns a reader exactly when the configuration file can
    be read and parses as a mapping that has the three keys; the reader
    then holds the three values and the results path, has no [pdf_file]
    attribute, and nothing was logged or written. *)
Theorem init_returns_iff (yaml_safe_load : string -> result yaml)
        (config_file results_path : string) (w w' : World) (self : PDFReader) :
  init yaml_safe_load config_file results_path w = (Returns self, w')
  <-> exists doc m u ts pat,
        os.read_file config_file (fs w) = Returns doc
        /\ yaml_safe_load doc = Returns (YMap m)
        /\ m !! "pdf_url" = Some u
        /\ m !! "table_settings" = Some ts
        /\ m !! "pattern" = Some pat
        /\ self = {| results_path := results_path;
                     config := YMap m;
                     url := u;
                     table_settings := ts;
                     title_pattern := pat;
                     pdf_file := None |}
        /\ w' = w.
Proof.
  split.
  - unfold init. intros H.
    apply bind_inv in H. destruct H as (c & w1 & Hload & H).
    apply load_config_inv in Hload. destruct Hload as (doc & Hread & Hparse & ->).
    apply bind_inv in H. destruct H as (u & w2 & Hu & H).
    apply bind_inv in H. destruct H as (ts & w3 & Hts & H).
    apply bind_inv in H. destruct H as (pat & w4 & Hpat & H).
    unfold call in Hu, Hts, Hpat. unfold ret in H.
    inversion Hu as [[Hu' Hw2]]. inversion Hts as [[Hts' Hw3]].
    inversion Hpat as [[Hpat' Hw4]]. inversion H as [[Hself Hw']].
    subst w2 w3 w4.
    apply getitem_inv in Hu'. destruct Hu' as (m & -> & Hmu).
    apply getitem_inv in Hts'. destruct Hts' as (m1 & [= <-] & Hmts).
    apply getitem_inv in Hpat'. destruct Hpat' as (m2 & [= <-] & Hmpat).
    subst w' self. exists doc, m, u, ts, pat. repeat split; assumption.
  - intros (doc & m & u & ts & pat & Hread & Hparse & Hu & Hts & Hpat & -> & ->).
    assert (Hcfg : load_config yaml_safe_load config_file w = (Returns (YMap m), w)).
    { unfold load_config, try_except, bind, fs_query, call.
      now rewrite Hread, Hparse. }
    unfold init. rewrite (bind_Returns _ _ _ _ _ Hcfg).
    unfold bind, call, getitem, ret. now rewrite Hu, Hts, Hpat.
Qed.

Lemma init_returns_iff_witness :
  exists m,
    Sample.full_config = YMap m
    /\ init Sample.yaml_safe_load "config.yml" "/out" Sample.world0
       = (Returns Sample.reader0, Sample.world0).
Proof.
  eexists. split; [reflexivity|].
  apply (proj2 (init_returns_iff Sample.yaml_safe_load "config.yml" "/out"
                  Sample.world0 Sample.world0 Sample.reader0)).
  exists "full". eexists. exists (YStr "http://example.org/report.pdf").
  exists (YMap ∅), (YStr "Table [0-9]+").
  split; [vm_compute; reflexivity|].
  split; [reflexivity|].
  split; [vm_compute; reflexivity|].
  split; [vm_compute; reflexivity|].
  split; [vm_compute; reflexivity|].
  split; reflexivity.
Defined.

(** A configuration that parses, but not as a mapping (an empty file, a
    sequence, a scalar), makes [__init__] raise [TypeError] at the first
    subscript; nothing is logged. *)
Theorem init_not_a_mapping (yaml_safe_load : string -> result yaml)
        (config_file results_path doc : string) (c : yaml) (w : World) :
  os.read_file config_file (fs w) = Returns doc ->
  yaml_safe_load doc = Returns c ->
  (forall m, c <> YMap m) ->
  init yaml_safe_load config_file results_path w = (Raises TypeError, w).
Proof.
  intros Hread Hparse Hnot.
  assert (Hcfg : load_config yaml_safe_load config_file w = (Returns c, w)).
  { unfold load_config, try_except, bind, fs_query, call.
    now rewrite Hread, Hparse. }
  unfold init. rewrite (bind_Returns _ _ _ _ _ Hcfg).
  unfold bind, call.
  destruct c; try reflexivity. now destruct (Hnot m).
Qed.

Lemma init_not_a_mapping_witness :
  init Scenario.seq_load "config.yml" "/out" Sample.world0
  = (Raises TypeError, Sample.world0).
Proof.
  apply (init_not_a_mapping Scenario.seq_load "config.yml" "/out" "full" (YSeq [])).
  - vm_compute. reflexivity.
  - reflexivity.
  - intros m. discriminate.
Defined.

(** A configuration file that is not found, or that the YAML parser
    refuses, makes [__init__] raise that error after one error record is
    logged; another error of [open] (the path is a directory) is raised
    without a record. In no case is the file system touched. *)
Theorem init_config_errors (yaml_safe_load : string -> result yaml)
        (config_file results_path : string) (w : World) :
  (forall p,
      os.read_file config_file (fs w) = Raises (FileNotFoundError p) ->
      init yaml_safe_load config_file results_path w
      = (Raises (FileNotFoundError p), logged w [Error_config_not_found config_file]))
  /\ (forall doc,
         os.read_file config_file (fs w) = Returns doc ->
         yaml_safe_load doc = Raises YAMLError ->
         init yaml_safe_load config_file results_path w
         = (Raises YAMLError, logged w [Error_parsing_yaml YAMLError]))
  /\ (forall p,
         os.read_file config_file (fs w) = Raises (OSError p) ->
         init yaml_safe_load config_file results_path w = (Raises (OSError p), w)).
Proof.
  split; [|split].
  - intros p Hread. unfold init, load_config, try_except, bind, fs_query, call.
    now rewrite Hread.
  - intros doc Hread Hparse.
    unfold init, load_config, try_except, bind, fs_query, call.
    now rewrite Hread, Hparse.
  - intros p Hread. unfold init, load_config, try_except, bind, fs_query, call.
    now rewrite Hread.
Qed.

Lemma init_config_errors_witness :
  init Sample.yaml_safe_load "missing.yml" "/out" Sample.world0
  = (Raises (FileNotFoundError "missing.yml"),
     logged Sample.world0 [Error_config_not_found "missing.yml"])
  /\ init Sample.yaml_safe_load "/" "/out" Sample.world0
     = (Raises (OSError "/"), Sample.world0).
Proof.
  split.
  - apply (proj1 (init_config_errors Sample.yaml_safe_load "missing.yml" "/out"
                    Sample.world0)).
    vm_compute. reflexivity.
  - apply (proj2 (proj2 (init_config_errors Sample.yaml_safe_load "/" "/out"
                           Sample.world0))).
    vm_compute. reflexivity.
Defined.

(** ** Fetching *)

(** [extract_pdf_from_url] returns exactly when the request returns a
    response whose status is no error: the reader then differs from
    [self] only in [pdf_file], which holds the response body, and one
    record is logged. A [RequestException], of the request or of the
    status check, is logged and raised again. *)
Theorem extract_pdf_from_url_outcome (requests_get : yaml -> result Response)
        (self : PDFReader) (w : World) :
  (forall self' w',
      extract_pdf_from_url requests_get self w = (Returns self', w')
      <-> exists response,
            requests_get (url self) = Returns response
            /\ raise_for_status response = Returns tt
            /\ self' = with_pdf_file self (content response)
            /\ w' = logged w [Info_pdf_downloaded])
  /\ (requests_get (url self) = Raises RequestException
      \/ (exists response,
             requests_get (url self) = Returns response
             /\ raise_for_status response = Raises RequestException) ->
      extract_pdf_from_url requests_get self w
      = (Raises RequestException, logged w [Error_downloading RequestException])).
Proof.
  split.
  - intros self' w'. unfold extract_pdf_from_url, try_except, bind, call, ret.
    destruct (requests_get (url self)) as [response|e].
    + destruct (raise_for_status response) as [[]|e] eqn:Hst.
      * rewrite logging_logged. split.
        -- intros [= <- <-]. exists response. auto.
        -- intros (r & [= <-] & _ & -> & ->). reflexivity.
      * split.
        -- destruct e; simpl; discriminate.
        -- intros (r & [= <-] & Hr & _). rewrite Hst in Hr. discriminate.
    + split.
      * destruct e; simpl; discriminate.
      * intros (r & Hr & _). discriminate.
  - unfold extract_pdf_from_url, try_except, bind, call.
    intros [Hget | (response & Hget & Hst)]; rewrite Hget; [reflexivity|].
    now rewrite Hst.
Qed.

Lemma extract_pdf_from_url_outcome_witness :
  extract_pdf_from_url Sample.requests_get Sample.reader0 Sample.world0
  = (Returns (with_pdf_file Sample.reader0 "%PDF"),
     logged Sample.world0 [Info_pdf_downloaded])
  /\ extract_pdf_from_url Scenario.failing_get Sample.reader0 Sample.world0
     = (Raises RequestException,
        logged Sample.world0 [Error_downloading RequestException]).
Proof.
  split.
  - apply (proj1 (extract_pdf_from_url_outcome Sample.requests_get Sample.reader0
                    Sample.world0)).
    exists {| status_code := 200; content := "%PDF" |}.
    repeat split; reflexivity.
  - apply (proj2 (extract_pdf_from_url_outcome Scenario.failing_get Sample.reader0
                    Sample.world0)).
    right. exists {| status_code := 404; content := "not found" |}.
    split; reflexivity.
Defined.

(** ** Document processing only logs *)

Lemma extract_tables_from_page_logged (self : PDFReader) (page : Page)
      (page_num : nat) (w : World) :
  exists r records,
    extract_tables_from_page self page page_num w = (r, logged w records).
Proof.
  destruct (page_search page (title_pattern self)) as [titles|e] eqn:Hs.
  - destruct (page_extract_tables page (table_settings self)) as [tables|e] eqn:Ht.
    + destruct (extract_tables_from_page_returns self page page_num w _ _ Hs Ht)
        as (d & records & Hret & _).
      eauto.
    + exists (Raises e), []. rewrite logged_nil.
      unfold extract_tables_from_page, extract_titles_from_page, bind, call.
      now rewrite Hs, Ht.
  - exists (Raises e), []. rewrite logged_nil.
    unfold extract_tables_from_page, extract_titles_from_page, bind, call.
    now rewrite Hs.
Qed.

Lemma pages_loop_logged (self : PDFReader) (pages : list Page) :
  forall (page_num : nat) (combined : PyDict.t DataFrame) (w : World),
  exists r records,
    pages_loop self page_num pages combined w = (r, logged w records).
Proof.
  induction pages as [|page rest IH]; intros n combined w; simpl.
  - exists (Returns combined), []. now rewrite logged_nil.
  - destruct (extract_tables_from_page_logged self page n w) as (r & r1 & Hpage).
    unfold bind at 1. rewrite Hpage. destruct r as [d|e].
    + destruct (IH (S n) (PyDict.update combined d) (logged w r1))
        as (r' & r2 & Hrest).
      rewrite Hrest, logged_logged. eauto.
    + eauto.
Qed.

Lemma extract_content_from_pdf_logged
      (pdfplumber_open : string -> result (list Page)) (self : PDFReader)
      (w : World) :
  exists r records,
    extract_content_from_pdf pdfplumber_open self w = (r, logged w records).
Proof.
  unfold extract_content_from_pdf.
  destruct (pdf_file self) as [[buffer|]|].
  - unfold try_except, bind at 1, call.
    destruct (pdfplumber_open buffer) as [pages|e].
    + destruct (pages_loop_logged self pages 1 PyDict.empty w) as (r & r1 & Hloop).
      rewrite Hloop. destruct r as [d|e].
      * exists (Returns d), r1. auto.
      * exists (Raises e), (r1 ++ [Error_processing_pdf e]).
        unfold bind. now rewrite logging_logged, logged_logged.
    + exists (Raises e), [Error_processing_pdf e].
      unfold bind. now rewrite logging_logged.
  - exists (Raises (Exception NOT_LOADED)), []. now rewrite logged_nil.
  - exists (Raises (AttributeError "pdf_file")), []. now rewrite logged_nil.
Qed.

(** [extract_content_from_pdf] never touches the file system and never
    removes a log record, whether it returns or raises: the world it
    leaves is the one it found with records appended to the log. *)
Theorem extract_content_from_pdf_only_logs
        (pdfplumber_open : string -> result (list Page)) (self : PDFReader)
        (w : World) :
  exists r records,
    extract_content_from_pdf pdfplumber_open self w = (r, logged w records)
    /\ fs (logged w records) = fs w
    /\ log (logged w records) = log w ++ records.
Proof.
  destruct (extract_content_from_pdf_logged pdfplumber_open self w)
    as (r & records & H).
  exists r, records. auto.
Qed.

(** ** A page that cannot be read *)

Lemma pages_loop_app_trace (self : PDFReader) (page_num : nat) (l1 : list Page)
      (w w1 : World) (ds : list (PyDict.t DataFrame)) :
  pages_trace self page_num l1 w ds w1 ->
  forall rest combined,
    pages_loop self page_num (l1 ++ rest) combined w
    = pages_loop self (length l1 + page_num) rest
        (fold_left PyDict.update ds combined) w1.
Proof.
  induction 1 as [n w | n page l1 w w1 w2 d ds Hpage Htrace IH];
    intros rest combined; simpl.
  - reflexivity.
  - rewrite (bind_Returns _ _ _ _ _ Hpage), IH.
    now rewrite Nat.add_succ_r.
Qed.

Lemma extract_tables_from_page_raises (self : PDFReader) (page : Page)
      (page_num : nat) (w : World) (e : exn) :
  page_search page (title_pattern self) = Raises e
  \/ (exists titles,
         page_search page (title_pattern self) = Returns titles
         /\ page_extract_tables page (table_settings self) = Raises e) ->
  extract_tables_from_page self page page_num w = (Raises e, w).
Proof.
  unfold extract_tables_from_page, extract_titles_from_page, bind, call.
  intros [Hs | (titles & Hs & Ht)]; rewrite Hs; [reflexivity|].
  now rewrite Ht.
Qed.

(** Unlike a failure inside the table loop, a failure to search a page
    for titles or to extract its tables is fatal: the document processor
    logs it and raises it, and the mappings of the pages before are lost. *)
Theorem page_failure_aborts_document
        (pdfplumber_open : string -> result (list Page)) (self : PDFReader)
        (buffer : string) (before : list Page) (page : Page) (after : list Page)
        (w w1 : World) (ds : list (PyDict.t DataFrame)) (e : exn) :
  pdf_file self = Some (Some buffer) ->
  pdfplumber_open buffer = Returns (before ++ page :: after) ->
  pages_trace self 1 before w ds w1 ->
  page_search page (title_pattern self) = Raises e
  \/ (exists titles,
         page_search page (title_pattern self) = Returns titles
         /\ page_extract_tables page (table_settings self) = Raises e) ->
  extract_content_from_pdf pdfplumber_open self w
  = (Raises e, logged w1 [Error_processing_pdf e]).
Proof.
  intros Hfile Hopen Htrace Hfail.
  unfold extract_content_from_pdf. rewrite Hfile.
  unfold try_except, bind at 1, call. rewrite Hopen.
  rewrite (pages_loop_app_trace _ _ _ _ _ _ Htrace). simpl.
  unfold bind at 1.
  rewrite (extract_tables_from_page_raises self page _ w1 e Hfail).
  unfold bind. now rewrite logging_logged.
Qed.

Lemma page_failure_aborts_document_witness :
  extract_content_from_pdf Scenario.broken_open Sample.loaded_reader Sample.world0
  = (Raises PdfError,
     logged (logged Sample.world0 [Info_extracted_title "Summary"])
            [Error_processing_pdf PdfError]).
Proof.
  apply (page_failure_aborts_document Scenario.broken_open Sample.loaded_reader
           "%PDF" [Sample.summary_page Sample.table_A] Scenario.broken_page []
           Sample.world0 (logged Sample.world0 [Info_extracted_title "Summary"])
           [[("Summary", Sample.df_A)]]).
  - reflexivity.
  - reflexivity.
  - eapply trace_page; [reflexivity | apply trace_done].
  - left. reflexivity.
Defined.

(** ** Fetching, then processing *)

(** On the reader a successful fetch returns, the document processor
    passes its guard and hands the response body to the PDF parser: a
    refusal of the parser is logged and raised, and otherwise the pages
    are processed. *)
Theorem fetch_then_process (requests_get : yaml -> result Response)
        (pdfplumber_open : string -> result (list Page))
        (self self' : PDFReader) (w w1 : World) :
  extract_pdf_from_url requests_get self w = (Returns self', w1) ->
  exists response,
    requests_get (url self) = Returns response
    /\ (forall e w2,
           pdfplumber_open (content response) = Raises e ->
           extract_content_from_pdf pdfplumber_open self' w2
           = (Raises e, logged w2 [Error_processing_pdf e]))
    /\ (forall pages w2 ds w3,
           pdfplumber_open (content response) = Returns pages ->
           pages_trace self' 1 pages w2 ds w3 ->
           extract_content_from_pdf pdfplumber_open self' w2
           = (Returns (fold_left PyDict.update ds PyDict.empty), w3)).
Proof.
  intros Hfetch.
  assert (Hinv : exists response,
             requests_get (url self) = Returns response
             /\ self' = with_pdf_file self (content response)).
  { revert Hfetch. unfold extract_pdf_from_url, try_except, bind, call, ret.
    destruct (requests_get (url self)) as [response|e].
    - destruct (raise_for_status response) as [[]|e].
      + rewrite logging_logged. intros [= <- _]. exists response. auto.
      + destruct e; simpl; discriminate.
    - destruct e; simpl; discriminate. }
  destruct Hinv as (response & Hget & ->).
  exists response. split; [exact Hget|]. split.
  - intros e w2 Hopen. unfold extract_content_from_pdf. simpl.
    unfold try_except, bind at 1, call. rewrite Hopen.
    unfold bind. now rewrite logging_logged.
  - intros pages w2 ds w3 Hopen Htrace. unfold extract_content_from_pdf. simpl.
    unfold try_except, bind, call. rewrite Hopen.
    now rewrite (pages_loop_of_trace _ _ _ _ _ _ Htrace).
Qed.

Lemma fetch_then_process_witness :
  exists combined w3,
    extract_content_from_pdf Sample.summary_open
      (with_pdf_file Sample.reader0 "%PDF") Sample.world0
    = (Returns combined, w3)
    /\ PyDict.keys combined = ["Summary"].
Proof.
  destruct (fetch_then_process Sample.requests_get Sample.summary_open
              Sample.reader0 (with_pdf_file Sample.reader0 "%PDF")
              Sample.world0 (logged Sample.world0 [Info_pdf_downloaded]))
    as (response & Hget & _ & Hpages); [reflexivity|].
  inversion Hget; subst response.
  eexists. eexists. split.
  - apply (Hpages [Sample.summary_page Sample.table_A;
                   Sample.summary_page Sample.table_B]
                  Sample.world0
                  [[("Summary", Sample.df_A)]; [("Summary", Sample.df_B)]]
                  (logged Sample.world0
                     [Info_extracted_title "Summary";
                      Info_extracted_title "Summary"])).
    + reflexivity.
    + eapply trace_page; [reflexivity|].
      eapply trace_page; [reflexivity|].
      apply trace_done.
  - reflexivity.
Defined.

(** ** Tables of one page under the same title *)

Lemma table_step_outcome (self : PDFReader) (page : Page) (page_num : nat)
      (titles : list Title) (index : nat) (table : Table)
      (d : PyDict.t DataFrame) (w : World) :
  exists records,
    table_step self page page_num titles index table d w
    = (Returns match table_outcome self page titles index table with
               | Some entry => PyDict.set (fst entry) (snd entry) d
               | None => d
               end,
       logged w records).
Proof.
  unfold table_step, try_except, table_body, table_outcome, bind, call, ret,
    list_getitem.
  destruct (page_find_tables page (table_settings self)) as [found|e]; cbv beta iota.
  2:{ rewrite logging_logged. eauto. }
  destruct (nth_error found index) as [b|]; cbv beta iota.
  2:{ rewrite logging_logged. eauto. }
  destruct (find_title_for_table titles (bbox_1 b)) as [title|]; cbv beta iota.
  2:{ exists []. now rewrite logged_nil. }
  destruct (PyStr.truthy title); cbv beta iota.
  2:{ exists []. now rewrite logged_nil. }
  rewrite logging_logged.
  destruct table as [|header data]; cbn [nth_error tl]; cbv beta iota.
  { rewrite logging_logged, logged_logged. eauto. }
  destruct (pd.DataFrame_of data header) as [df|e]; cbv beta iota.
  - eauto.
  - rewrite logging_logged, logged_logged. eauto.
Qed.

Lemma tables_loop_entries (self : PDFReader) (page : Page) (page_num : nat)
      (titles : list Title) (tables : list Table) :
  forall (index : nat) (d : PyDict.t DataFrame) (w : World),
  exists records,
    tables_loop self page page_num titles index tables d w
    = (Returns (PyDict.update d (page_entries self page titles index tables)),
       logged w records).
Proof.
  induction tables as [|table rest IH]; intros index d w; simpl.
  - exists []. now rewrite logged_nil.
  - destruct (table_step_outcome self page page_num titles index table d w)
      as (r1 & Hstep).
    rewrite (bind_Returns _ _ _ _ _ Hstep).
    destruct (table_outcome self page titles index table) as [[k df]|]; simpl.
    + destruct (IH (S index) (PyDict.set k df d) (logged w r1)) as (r2 & Hrest).
      rewrite Hrest, logged_logged. eauto.
    + destruct (IH (S index) d (logged w r1)) as (r2 & Hrest).
      rewrite Hrest, logged_logged. eauto.
Qed.

Lemma get_app_last {V} (k k1 : string) (v1 : V) (l : PyDict.t V) :
  PyDict.get k (l ++ [(k1, v1)])
  = match PyDict.get k l with
    | Some v => Some v
    | None => if String.eqb k k1 then Some v1 else None
    end.
Proof.
  induction l as [|[k' v'] l IH]; simpl; [reflexivity|].
  now destruct (String.eqb k k').
Qed.

(** [update] with any list of entries: the last entry of a key wins. *)
Lemma get_update_rev {V} (k : string) (entries : list (string * V)) :
  forall d : PyDict.t V,
    PyDict.get k (PyDict.update d entries)
    = match PyDict.get k (rev entries) with
      | Some v => Some v
      | None => PyDict.get k d
      end.
Proof.
  unfold PyDict.update.
  induction entries as [|[k1 v1] es IH]; intros d; simpl; [reflexivity|].
  rewrite IH, get_app_last, get_set.
  destruct (PyDict.get k (rev es)); [reflexivity|].
  now destruct (String.eqb k k1).
Qed.

(** Once titles and tables are located, the page processor returns the
    entries of the page's tables written into an empty mapping in
    detection order; when several tables of the page resolve to one
    title, the mapping holds the frame of the last of them. *)
Theorem page_last_table_wins (self : PDFReader) (page : Page) (page_num : nat)
        (w : World) (titles : list Title) (tables : list Table) :
  page_search page (title_pattern self) = Returns titles ->
  page_extract_tables page (table_settings self) = Returns tables ->
  exists records,
    extract_tables_from_page self page page_num w
    = (Returns (PyDict.update PyDict.empty (page_entries self page titles 0 tables)),
       logged w records)
    /\ forall k,
         PyDict.get k (PyDict.update PyDict.empty
                         (page_entries self page titles 0 tables))
         = PyDict.get k (rev (page_entries self page titles 0 tables)).
Proof.
  intros Hs Ht.
  assert (Hret : exists records,
             extract_tables_from_page self page page_num w
             = (Returns (PyDict.update PyDict.empty
                           (page_entries self page titles 0 tables)),
                logged w records)).
  { unfold extract_tables_from_page, extract_titles_from_page, bind, call.
    rewrite Hs, Ht. destruct tables as [|table rest].
    - exists []. now rewrite logged_nil.
    - apply tables_loop_entries. }
  destruct Hret as (records & Hret). exists records. split; [exact Hret|].
  intros k. rewrite get_update_rev.
  now destruct (PyDict.get k (rev (page_entries self page titles 0 tables))).
Qed.

Lemma page_last_table_wins_witness :
  exists d w',
    extract_tables_from_page Sample.reader0 Scenario.twin_page 1 Sample.world0
    = (Returns d, w')
    /\ PyDict.get "Totals" d
       = Some {| columns := [Some "k"]; rows := [[Some "new"]] |}.
Proof.
  destruct (page_last_table_wins Sample.reader0 Scenario.twin_page 1 Sample.world0
              [mkTitle "Totals" 10]
              [ [[Some "k"]; [Some "old"]]; [[Some "k"]; [Some "new"]] ])
    as (records & Hret & Hget); [reflexivity | reflexivity |].
  eexists. eexists. split; [exact Hret|].
  rewrite Hget. reflexivity.
Defined.

(** ** Keys are never empty *)

Lemma page_entries_truthy (self : PDFReader) (page : Page) (titles : list Title)
      (tables : list Table) :
  forall index k,
    In k (map fst (page_entries self page titles index tables)) ->
    PyStr.truthy k = true.
Proof.
  induction tables as [|table rest IH]; intros index k; simpl; [intros []|].
  destruct (table_outcome self page titles index table) as [[k1 df]|] eqn:E;
    [|apply IH].
  simpl. intros [<- | Hk]; [|now apply (IH (S index))].
  revert E. unfold table_outcome.
  destruct (page_find_tables page (table_settings self)); [|discriminate].
  destruct (nth_error v index); [|discriminate].
  destruct (find_title_for_table titles (bbox_1 b)) as [title|]; [|discriminate].
  destruct (PyStr.truthy title) eqn:Etr; [|discriminate].
  destruct table as [|header data]; [discriminate|].
  destruct (pd.DataFrame_of data header); [|discriminate].
  now intros [= <- _].
Qed.

Lemma keys_update_entries {V} (k : string) (entries : list (string * V)) :
  forall d : PyDict.t V,
    In k (PyDict.keys (PyDict.update d entries)) ->
    In k (PyDict.keys d) \/ In k (map fst entries).
Proof. intros d H. now apply keys_update in H. Qed.

Lemma page_keys_truthy (self : PDFReader) (page : Page) (page_num : nat)
      (w w' : World) (d : PyDict.t DataFrame) :
  extract_tables_from_page self page page_num w = (Returns d, w') ->
  forall k, In k (PyDict.keys d) -> PyStr.truthy k = true.
Proof.
  intros Hret k Hk.
  destruct (extract_tables_from_page_inv _ _ _ _ _ _ Hret)
    as (titles & tables & records & Hs & Ht & _ & _).
  destruct (tables_loop_entries self page page_num titles tables 0 PyDict.empty w)
    as (r & Hloop).
  assert (Hd : d = PyDict.update PyDict.empty (page_entries self page titles 0 tables)).
  { revert Hret. unfold extract_tables_from_page, extract_titles_from_page, bind, call.
    rewrite Hs, Ht. destruct tables as [|table rest].
    - now intros [= <- _].
    - rewrite Hloop. now intros [= <- _]. }
  subst d. apply keys_update_entries in Hk. destruct Hk as [[] | Hk].
  exact (page_entries_truthy self page titles tables 0 k Hk).
Qed.

Lemma pages_trace_keys_truthy (self : PDFReader) (page_num : nat)
      (pages : list Page) (w w' : World) (ds : list (PyDict.t DataFrame)) :
  pages_trace self page_num pages w ds w' ->
  forall d, In d ds -> forall k, In k (PyDict.keys d) -> PyStr.truthy k = true.
Proof.
  induction 1 as [n w | n page rest w w1 w2 d0 ds Hpage Htrace IH];
    intros d; simpl; [intros []|].
  intros [<- | Hd].
  - exact (page_keys_truthy _ _ _ _ _ _ Hpage).
  - exact (IH d Hd).
Qed.

(** No key of a mapping returned by the page processor or by the
    document processor is the empty string (a title that is empty once
    its newlines are removed is dropped by the test [if title:]), so
    every derived file name has a stem before [.csv]. *)
Theorem keys_are_not_empty :
  (forall self page page_num w d w',
      extract_tables_from_page self page page_num w = (Returns d, w') ->
      forall k, In k (PyDict.keys d) ->
                k <> EmptyString /\ filename_of k <> ".csv")
  /\ (forall pdfplumber_open self w d w',
         extract_content_from_pdf pdfplumber_open self w = (Returns d, w') ->
         forall k, In k (PyDict.keys d) ->
                   k <> EmptyString /\ filename_of k <> ".csv").
Proof.
  assert (Hne : forall k, PyStr.truthy k = true ->
                          k <> EmptyString /\ filename_of k <> ".csv").
  { intros [|c k] Htr; [discriminate|]. split; [discriminate|].
    rewrite filename_of_slug, slug_map. simpl. rewrite str_app_cons.
    intros H. apply (f_equal String.length) in H. simpl in H.
    rewrite str_length_app in H. simpl in H. lia. }
  split.
  - intros self page page_num w d w' Hret k Hk.
    apply Hne. exact (page_keys_truthy _ _ _ _ _ _ Hret k Hk).
  - intros pdfplumber_open self w d w' Hret k Hk.
    apply extract_content_from_pdf_inv in Hret.
    destruct Hret as (buffer & pages & ds & _ & _ & Htrace & ->).
    apply keys_fold_update in Hk. destruct Hk as [[] | (d & Hd & Hk)].
    apply Hne. exact (pages_trace_keys_truthy _ _ _ _ _ _ Htrace d Hd k Hk).
Qed.

Lemma keys_are_not_empty_witness :
  "Table 1" <> EmptyString /\ filename_of "Table 1" <> ".csv".
Proof.
  apply (proj1 keys_are_not_empty Sample.reader0 Sample.page1 1 Sample.world0
           [("Table 1", {| columns := [Some "A"; Some "B"];
                           rows := [[Some "1"; Some "2"]] |})]
           (logged Sample.world0
                [Info_extracted_title "Table 1";
                 Error_extracting_tables 1 ValueError;
                 Info_extracted_title "Table 1"])).
  - reflexivity.
  - now left.
Defined.

(** ** What [save_as_csv] writes *)






(** ** The log of [load_tables] *)

Lemma items_loop_log (self : PDFReader) (items : list (string * DataFrame)) :
  forall w w',
    items_loop self items w = (Returns tt, w') ->
    exists records,
      log w' = log w ++ records
      /\ Forall2 (fun item record =>
                    record = Info_table_saved (filepath_of self (fst item))
                    \/ exists e, record = Error_saving_csv e)
                 items records.
Proof.
  induction items as [|[title df] rest IH]; intros w w' H; simpl in H.
  - inversion H; subst. exists []. rewrite app_nil_r. split; [reflexivity|constructor].
  - apply bind_inv in H. destruct H as ([] & w1 & Hsave & Hrest).
    destruct (IH _ _ Hrest) as (records & Hlog & Hall).
    apply save_as_csv_inv in Hsave.
    destruct Hsave as (fs1 & _ & [(fs2 & _ & ->) | (e & fs' & -> & _)]);
      simpl in Hlog.
    + exists (Info_table_saved (filepath_of self title) :: records).
      split; [now rewrite Hlog, <- app_assoc|].
      constructor; [now left | exact Hall].
    + exists (Error_saving_csv e :: records).
      split; [now rewrite Hlog, <- app_assoc|].
      constructor; [right; eauto | exact Hall].
Qed.

(** [load_tables] on an empty mapping logs one error and writes nothing;
    on a mapping with entries, when it returns it has logged exactly one
    record per entry, in the order of the mapping: the path of the
    saved file or the error of the write. *)
Theorem load_tables_log (self : PDFReader) (tables : PyDict.t DataFrame)
        (w : World) :
  (tables = [] ->
   load_tables self tables w = (Returns tt, logged w [Error_no_valid_tables]))
  /\ (forall w',
         tables <> [] ->
         load_tables self tables w = (Returns tt, w') ->
         exists records,
           log w' = log w ++ records
           /\ Forall2 (fun item record =>
                         record = Info_table_saved (filepath_of self (fst item))
                         \/ exists e, record = Error_saving_csv e)
                      tables records).
Proof.
  split.
  - intros ->. reflexivity.
  - intros w' Hne Hret. unfold load_tables in Hret.
    destruct tables as [|item rest]; [now destruct Hne|].
    simpl PyDict.truthy in Hret. simpl negb in Hret. cbv iota in Hret.
    exact (items_loop_log self _ _ _ Hret).
Qed.

Lemma load_tables_log_witness :
  exists w',
    load_tables Sample.reader0
      [("Table One", Sample.df_A); ("a/b", Sample.df_B)] Sample.world0
    = (Returns tt, w')
    /\ exists records,
         log w' = records /\ length records = 2%nat.
Proof.
  destruct (load_tables Sample.reader0
              [("Table One", Sample.df_A); ("a/b", Sample.df_B)] Sample.world0)
    as [[[]|e] w'] eqn:Hload; [|vm_compute in Hload; discriminate].
  exists w'. split; [reflexivity|].
  destruct (proj2 (load_tables_log Sample.reader0
                     [("Table One", Sample.df_A); ("a/b", Sample.df_B)]
                     Sample.world0) w')
    as (records & Hlog & Hall); [discriminate | exact Hload |].
  exists records. split; [exact Hlog|].
  symmetry. exact (Forall2_length _ _ _ Hall).
Defined.

(** ** The pipeline writes last *)

Lemma load_config_fs (yaml_safe_load : string -> result yaml)
      (config_path : string) (w w' : World) (r : result yaml) :
  load_config yaml_safe_load config_path w = (r, w') -> fs w' = fs w.
Proof.
  unfold load_config, try_except, bind, fs_query, call, logging, raise.
  destruct (os.read_file config_path (fs w)) as [doc|e].
  - destruct (yaml_safe_load doc) as [c|e].
    + now intros [= _ <-].
    + destruct e; simpl; now intros [= _ <-].
  - destruct e; simpl; now intros [= _ <-].
Qed.

Lemma init_fs (yaml_safe_load : string -> result yaml)
      (config_file results_path : string) (w w' : World) (r : result PDFReader) :
  init yaml_safe_load config_file results_path w = (r, w') -> fs w' = fs w.
Proof.
  unfold init, bind at 1.
  destruct (load_config yaml_safe_load config_file w) as [[c|e] w1] eqn:Hcfg;
    apply load_config_fs in Hcfg.
  - unfold bind, call, ret.
    destruct (getitem c "pdf_url"); [|now intros [= _ <-]].
    destruct (getitem c "table_settings"); [|now intros [= _ <-]].
    destruct (getitem c "pattern"); now intros [= _ <-].
  - now intros [= _ <-].
Qed.

Lemma extract_pdf_from_url_fs (requests_get : yaml -> result Response)
      (self : PDFReader) (w w' : World) (r : result PDFReader) :
  extract_pdf_from_url requests_get self w = (r, w') -> fs w' = fs w.
Proof.
  unfold extract_pdf_from_url, try_except, bind, call, ret, logging, raise.
  destruct (requests_get (url self)) as [response|e].
  - destruct (raise_for_status response) as [[]|e].
    + now intros [= _ <-].
    + destruct e; simpl; now intros [= _ <-].
  - destruct e; simpl; now intros [= _ <-].
Qed.

Lemma extract_content_from_pdf_fs
      (pdfplumber_open : string -> result (list Page)) (self : PDFReader)
      (w w' : World) (r : result (PyDict.t DataFrame)) :
  extract_content_from_pdf pdfplumber_open self w = (r, w') -> fs w' = fs w.
Proof.
  destruct (extract_content_from_pdf_logged pdfplumber_open self w)
    as (r0 & records & ->).
  now intros [= _ <-].
Qed.

(** [main] changes the file system only in its last step: if the file
    system after a run differs from the one before, then the reader was
    constructed, the document was fetched, every page was processed and
    at least one titled table was found. In particular a run that fails
    in configuration, fetch or processing leaves no partial output. *)
Theorem main_writes_last (yaml_safe_load : string -> result yaml)
        (requests_get : yaml -> result Response)
        (pdfplumber_open : string -> result (list Page))
        (config_file results_path : string) (w w' : World) (r : result unit) :
  main yaml_safe_load requests_get pdfplumber_open config_file results_path w
  = (r, w') ->
  fs w' <> fs w ->
  exists self self' raw_tables w1 w2 w3,
    init yaml_safe_load config_file results_path w = (Returns self, w1)
    /\ extract_pdf_from_url requests_get self w1 = (Returns self', w2)
    /\ extract_content_from_pdf pdfplumber_open self' w2 = (Returns raw_tables, w3)
    /\ raw_tables <> []
    /\ fs w3 = fs w
    /\ load_tables self' raw_tables w3 = (r, w').
Proof.
  intros Hmain Hchanged. unfold main, bind at 1 in Hmain.
  destruct (init yaml_safe_load config_file results_path w)
    as [[self|e] w1] eqn:Hinit.
  2:{ apply init_fs in Hinit. inversion Hmain; subst. now destruct Hchanged. }
  unfold bind at 1 in Hmain.
  destruct (extract_pdf_from_url requests_get self w1) as [[self'|e] w2] eqn:Hfetch.
  2:{ apply init_fs in Hinit. apply extract_pdf_from_url_fs in Hfetch.
      inversion Hmain; subst. destruct Hchanged. congruence. }
  unfold bind at 1 in Hmain.
  destruct (extract_content_from_pdf pdfplumber_open self' w2)
    as [[raw|e] w3] eqn:Hproc.
  2:{ apply init_fs in Hinit. apply extract_pdf_from_url_fs in Hfetch.
      apply extract_content_from_pdf_fs in Hproc.
      inversion Hmain; subst. destruct Hchanged. congruence. }
  assert (Hfs : fs w3 = fs w).
  { apply init_fs in Hinit. apply extract_pdf_from_url_fs in Hfetch.
    apply extract_content_from_pdf_fs in Hproc. congruence. }
  exists self, self', raw, w1, w2, w3.
  repeat split; try assumption.
  intros ->. unfold load_tables in Hmain. simpl in Hmain.
  inversion Hmain; subst. now destruct Hchanged.
Qed.

Lemma main_writes_last_witness :
  exists raw_tables : PyDict.t DataFrame,
    raw_tables <> []
    /\ PyDict.keys raw_tables = ["Table 1"].
Proof.
  destruct (main Sample.yaml_safe_load Sample.requests_get Sample.pdfplumber_open
              "config.yml" "/out" Sample.world0) as [r w'] eqn:Hmain.
  destruct (main_writes_last Sample.yaml_safe_load Sample.requests_get
              Sample.pdfplumber_open "config.yml" "/out" Sample.world0 w' r Hmain)
    as (self & self' & raw & w1 & w2 & w3 & Hinit & Hfetch & Hproc & Hne & _ & _).
  - vm_compute in Hmain. inversion Hmain; subst w'. vm_compute. discriminate.
  - exists raw. split; [exact Hne|].
    vm_compute in Hinit. inversion Hinit; subst self w1.
    vm_compute in Hfetch. inversion Hfetch; subst self' w2.
    vm_compute in Hproc. inversion Hproc; subst raw. reflexivity.
Defined.

(** ** The size of a page's mapping *)

Lemma page_entries_length (self : PDFReader) (page : Page) (titles : list Title)
      (tables : list Table) :
  forall index,
    (length (page_entries self page titles index tables) <= length tables)%nat.
Proof.
  induction tables as [|table rest IH]; intros index; simpl; [lia|].
  destruct (table_outcome self page titles index table); simpl;
    specialize (IH (S index)); lia.
Qed.

(** The mapping of a page has no more entries than the page has tables,
    and no more than it has titles: a table adds at most one entry, and
    every key is the text of one of the page's titles with its newlines
    removed. *)
Theorem page_mapping_size (self : PDFReader) (page : Page) (page_num : nat)
        (w w' : World) (d : PyDict.t DataFrame)
        (titles : list Title) (tables : list Table) :
  page_search page (title_pattern self) = Returns titles ->
  page_extract_tables page (table_settings self) = Returns tables ->
  extract_tables_from_page self page page_num w = (Returns d, w') ->
  (length d <= length tables)%nat
  /\ (length d <= length titles)%nat
  /\ forall k, In k (PyDict.keys d) ->
               exists x, In x titles /\ k = strip_newlines (text x).
Proof.
  intros Hs Ht Hret.
  destruct (extract_tables_from_page_inv _ _ _ _ _ _ Hret)
    as (titles' & tables' & records & Hs' & _ & _ & Hnd & Hkeys).
  rewrite Hs in Hs'. inversion Hs'; subst titles'.
  assert (Hfrom : forall k, In k (PyDict.keys d) ->
                            exists x, In x titles /\ k = strip_newlines (text x)).
  { intros k Hk. destruct (Hkeys k Hk) as (b & Hb).
    apply find_title_for_table_inv in Hb.
    destruct Hb as (l1 & x & l2 & -> & _ & _ & ->).
    exists x. split; [apply List.in_or_app; right; now left | reflexivity]. }
  assert (Hlen : length d = length (PyDict.keys d))
    by (unfold PyDict.keys; now rewrite length_map).
  split; [|split; [|exact Hfrom]].
  - destruct (tables_loop_entries self page page_num titles tables 0 PyDict.empty w)
      as (r & Hloop).
    assert (Hd : d = PyDict.update PyDict.empty
                       (page_entries self page titles 0 tables)).
    { revert Hret. unfold extract_tables_from_page, extract_titles_from_page, bind, call.
      rewrite Hs, Ht. destruct tables as [|table rest].
      - now intros [= <- _].
      - rewrite Hloop. now intros [= <- _]. }
    rewrite Hlen.
    assert (Hincl : incl (PyDict.keys d)
                         (map fst (page_entries self page titles 0 tables))).
    { intros k Hk. rewrite Hd in Hk. apply keys_update_entries in Hk.
      now destruct Hk as [[] | Hk]. }
    pose proof (List.NoDup_incl_length Hnd Hincl) as Hle.
    rewrite length_map in Hle.
    pose proof (page_entries_length self page titles tables 0). lia.
  - rewrite Hlen.
    assert (Hincl : incl (PyDict.keys d)
                         (map (fun x => strip_newlines (text x)) titles)).
    { intros k Hk. destruct (Hfrom k Hk) as (x & Hx & ->).
      now apply (List.in_map (fun x => strip_newlines (text x))). }
    pose proof (List.NoDup_incl_length Hnd Hincl) as Hle.
    now rewrite length_map in Hle.
Qed.

Lemma page_mapping_size_witness :
  exists d w',
    extract_tables_from_page Sample.reader0 Scenario.twin_page 1 Sample.world0
    = (Returns d, w')
    /\ (length d <= 1)%nat.
Proof.
  destruct (extract_tables_from_page Sample.reader0 Scenario.twin_page 1
              Sample.world0) as [[d|e] w'] eqn:Hret;
    [|vm_compute in Hret; discriminate].
  exists d, w'. split; [reflexivity|].
  exact (proj1 (proj2 (page_mapping_size Sample.reader0 Scenario.twin_page 1
                         Sample.world0 w' d [mkTitle "Totals" 10]
                         [ [[Some "k"]; [Some "old"]]; [[Some "k"]; [Some "new"]] ]
                         eq_refl eq_refl Hret))).
Defined.

(** ** File names of titles beyond ASCII *)

Lemma u_replace_app (old : N) (new a b : Unicode.str) :
  Unicode.replace old new (a ++ b)
  = Unicode.replace old new a ++ Unicode.replace old new b.
Proof.
  induction a as [|c a IH]; simpl; [reflexivity|].
  destruct (c =? old)%N; rewrite IH; [now rewrite app_assoc | reflexivity].
Qed.

Lemma u_replace_In (x old : N) (new s : Unicode.str) :
  In x (Unicode.replace old new s) -> In x new \/ In x s.
Proof.
  induction s as [|c s IH]; simpl; [tauto|].
  destruct (c =? old)%N.
  - intros H. apply List.in_app_or in H. destruct H as [H | H]; [now left|].
    destruct (IH H); auto.
  - intros [<- | H]; [auto|]. destruct (IH H); auto.
Qed.

Lemma do_lower_no_sigma (t : Unicode.CaseTables) (s : Unicode.str) :
  ~ In Unicode.CAPITAL_SIGMA s ->
  forall before_rev,
    Unicode.do_lower t before_rev s = flat_map (Unicode.to_lower_full t) s.
Proof.
  induction s as [|c s IH]; intros Hno before_rev; simpl; [reflexivity|].
  destruct (c =? Unicode.CAPITAL_SIGMA)%N eqn:E.
  - apply N.eqb_eq in E. destruct Hno. now left.
  - rewrite IH; [reflexivity|]. intros H. apply Hno. now right.
Qed.

Lemma lower_app_no_sigma (t : Unicode.CaseTables) (a b : Unicode.str) :
  ~ In Unicode.CAPITAL_SIGMA a -> ~ In Unicode.CAPITAL_SIGMA b ->
  Unicode.lower t (a ++ b) = Unicode.lower t a ++ Unicode.lower t b.
Proof.
  intros Ha Hb. unfold Unicode.lower.
  rewrite !do_lower_no_sigma; try assumption.
  - apply flat_map_app.
  - intros H. apply List.in_app_or in H. tauto.
Qed.

Lemma replace_no_sigma (s : Unicode.str) :
  ~ In Unicode.CAPITAL_SIGMA s ->
  ~ In Unicode.CAPITAL_SIGMA
       (Unicode.replace Unicode.SPACE [Unicode.UNDERSCORE] s).
Proof.
  intros Hno H. apply u_replace_In in H. destruct H as [[H | []] | H].
  - discriminate.
  - now apply Hno.
Qed.

Lemma csv_no_sigma : ~ In Unicode.CAPITAL_SIGMA (Unicode.of_string ".csv").
Proof. vm_compute. intuition discriminate. Qed.

(** Without a capital sigma in the title, lowercasing does not look
    across the extension. *)
Lemma filename_no_sigma (t : Unicode.CaseTables) (title : Unicode.str) :
  ~ In Unicode.CAPITAL_SIGMA title ->
  Unicode.filename_of t title
  = Unicode.lower t (Unicode.replace Unicode.SPACE [Unicode.UNDERSCORE] title)
    ++ Unicode.of_string ".csv".
Proof.
  intros Hno. unfold Unicode.filename_of.
  rewrite u_replace_app.
  change (Unicode.replace Unicode.SPACE [Unicode.UNDERSCORE] (Unicode.of_string ".csv"))
    with (Unicode.of_string ".csv").
  rewrite lower_app_no_sigma; [reflexivity | now apply replace_no_sigma |].
  exact csv_no_sigma.
Qed.

Lemma is_ascii_no_sigma (s : Unicode.str) :
  Unicode.is_ascii s = true -> ~ In Unicode.CAPITAL_SIGMA s.
Proof.
  unfold Unicode.is_ascii. rewrite forallb_forall. intros H Hin.
  specialize (H _ Hin). discriminate.
Qed.

Lemma is_ascii_cons (c : N) (s : Unicode.str) :
  Unicode.is_ascii (c :: s) = true <-> (c < 128)%N /\ Unicode.is_ascii s = true.
Proof.
  unfold Unicode.is_ascii. simpl. rewrite andb_true_iff, N.ltb_lt. tauto.
Qed.

Lemma lower_replace_ascii (t : Unicode.CaseTables) (s : Unicode.str) :
  Unicode.is_ascii s = true ->
  Unicode.lower t (Unicode.replace Unicode.SPACE [Unicode.UNDERSCORE] s)
  = map Unicode.ascii_slug s.
Proof.
  intros Ha. unfold Unicode.lower.
  rewrite do_lower_no_sigma by now apply replace_no_sigma, is_ascii_no_sigma.
  induction s as [|c s IH]; simpl; [reflexivity|].
  apply is_ascii_cons in Ha. destruct Ha as (Hc & Hs).
  unfold Unicode.ascii_slug at 1.
  destruct (c =? Unicode.SPACE)%N; simpl.
  - now rewrite IH.
  - rewrite IH by assumption. unfold Unicode.to_lower_full.
    now rewrite (proj2 (N.ltb_lt c 128) Hc).
Qed.

Lemma lower_ascii (t : Unicode.CaseTables) (s : Unicode.str) :
  Unicode.is_ascii s = true ->
  Unicode.lower t s = map Unicode.ascii_lower s.
Proof.
  intros Ha. unfold Unicode.lower.
  rewrite do_lower_no_sigma by now apply is_ascii_no_sigma.
  induction s as [|c s IH]; simpl; [reflexivity|].
  apply is_ascii_cons in Ha. destruct Ha as (Hc & Hs).
  rewrite IH by assumption. unfold Unicode.to_lower_full.
  now rewrite (proj2 (N.ltb_lt c 128) Hc).
Qed.

Ltac n_cases :=
  repeat (match goal with
          | |- context [(?a <=? ?b)%N] => destruct (N.leb_spec a b)
          | |- context [(?a =? ?b)%N] => destruct (N.eqb_spec a b)
          | |- context [(?a <? ?b)%N] => destruct (N.ltb_spec a b)
          end; simpl in *);
  try reflexivity; try lia.

Lemma ascii_lower_ascii (c : N) : (c < 128)%N -> (Unicode.ascii_lower c < 128)%N.
Proof. intros H. unfold Unicode.ascii_lower. n_cases. Qed.

Lemma ascii_slug_lower (c : N) :
  Unicode.ascii_slug (Unicode.ascii_lower c) = Unicode.ascii_slug c.
Proof.
  unfold Unicode.ascii_slug, Unicode.ascii_lower, Unicode.SPACE, Unicode.UNDERSCORE.
  n_cases.
Qed.

Lemma is_ascii_lower (s : Unicode.str) :
  Unicode.is_ascii s = true -> Unicode.is_ascii (map Unicode.ascii_lower s) = true.
Proof.
  induction s as [|c s IH]; [reflexivity|]. simpl map.
  rewrite !is_ascii_cons. intros (Hc & Hs).
  split; [now apply ascii_lower_ascii | now apply IH].
Qed.

(** An ASCII title gets the name the pipeline's [filename_of] gives. *)
Lemma of_string_app (a b : string) :
  Unicode.of_string (a ++ b) = Unicode.of_string a ++ Unicode.of_string b.
Proof.
  unfold Unicode.of_string. induction a as [|c a IH]; [reflexivity|].
  rewrite str_app_cons. simpl. now rewrite IH.
Qed.

Lemma ascii_slug_char (a : ascii) :
  Unicode.ascii_slug (N_of_ascii a) = N_of_ascii (slug_char a).
Proof. destruct a as [[] [] [] [] [] [] [] []]; reflexivity. Qed.

Lemma filename_of_refines (t : Unicode.CaseTables) (title : string) :
  Unicode.is_ascii (Unicode.of_string title) = true ->
  Unicode.filename_of t (Unicode.of_string title)
  = Unicode.of_string (filename_of title).
Proof.
  intros Ha.
  rewrite filename_no_sigma by now apply is_ascii_no_sigma.
  rewrite lower_replace_ascii by assumption.
  rewrite filename_of_slug, slug_map, of_string_app. f_equal.
  clear Ha. unfold Unicode.of_string.
  induction title as [|c r IH]; simpl; [reflexivity|].
  now rewrite ascii_slug_char, IH.
Qed.

(** The title alpha, capital sigma: lowercased on its own the sigma is
    final, before the extension it is not. *)
Example lower_capital_sigma :
  Unicode.lower Unicode.greek [913; 931]%N = [945; 962]%N
  /\ Unicode.filename_of Unicode.greek [913; 931]%N
     = [945; 963]%N ++ Unicode.of_string ".csv".
Proof. split; reflexivity. Qed.




(** The file name does not tell titles apart that differ only in spaces
    against underscores or, for ASCII titles, in letter case: replacing
    the spaces of a title by underscores leaves the file name unchanged,
    and so does lowercasing an ASCII title; two ASCII titles share a
    file name exactly when their normalised forms are equal. *)
Theorem filename_of_collisions (t : Unicode.CaseTables) (title : Unicode.str) :
  Unicode.filename_of t (Unicode.replace Unicode.SPACE [Unicode.UNDERSCORE] title)
  = Unicode.filename_of t title
  /\ (Unicode.is_ascii title = true ->
      Unicode.filename_of t (Unicode.lower t title) = Unicode.filename_of t title)
  /\ forall other,
       Unicode.is_ascii title = true ->
       Unicode.is_ascii other = true ->
       (Unicode.filename_of t title = Unicode.filename_of t other
        <-> Unicode.lower t (Unicode.replace Unicode.SPACE [Unicode.UNDERSCORE] title)
            = Unicode.lower t
                (Unicode.replace Unicode.SPACE [Unicode.UNDERSCORE] other)).
Proof.
  split; [|split].
  - unfold Unicode.filename_of. rewrite !u_replace_app. f_equal. f_equal.
    induction title as [|c r IH]; simpl; [reflexivity|].
    destruct (c =? Unicode.SPACE)%N eqn:E; simpl; [|rewrite E]; now rewrite IH.
  - intros Ha.
    rewrite (lower_ascii t title Ha).
    pose proof (is_ascii_lower title Ha) as Hl.
    rewrite (filename_no_sigma t (map Unicode.ascii_lower title))
      by now apply is_ascii_no_sigma.
    rewrite (filename_no_sigma t title) by now apply is_ascii_no_sigma.
    rewrite !lower_replace_ascii by assumption.
    f_equal. rewrite map_map. apply map_ext. intros c. apply ascii_slug_lower.
  - intros other Ha Hb.
    rewrite !filename_no_sigma by now apply is_ascii_no_sigma.
    split; [apply app_inv_tail | now intros ->].
Qed.

Lemma filename_of_collisions_witness :
  Unicode.filename_of Unicode.greek (Unicode.of_string "Table One")
  = Unicode.filename_of Unicode.greek (Unicode.of_string "table_one").
Proof.
  apply (proj2 (proj2 (proj2 (filename_of_collisions Unicode.greek
                                (Unicode.of_string "Table One")))
                      (Unicode.of_string "table_one") eq_refl eq_refl)).
  reflexivity.
Defined.
